(** * Parking system: session lifecycle and tariff computation

    A shallow embedding of the decision logic of [src/app/page.tsx]
    (the [ParkingSystem] component): the plate formatter, the entry and
    exit handlers, the pass recharge and the pricing engine.

    Conventions of the embedding.
    - A JavaScript [Date] is its time value, a number of milliseconds since
      the epoch, in [Z].  The ISO strings that the component stores
      ([entryTime], [exitTime], [expiryDate]) are read back with [new Date]
      and are therefore represented by the same time value.
    - [hours], [amount] and the minute counts are JavaScript numbers; they
      are modelled by [Z] (the values entered in the settings panel and
      produced by [differenceInMinutes] are integers).
    - The React state of the component is a record that every handler
      receives and returns; what a handler reads from the outside world
      (the clock, [getUserId], [Math.random], the answer of the database)
      is a record [Env].
    - Strings are [string]; the plate formatter is modelled on ASCII text. *)

From Stdlib Require Import ZArith Lia List String Ascii Bool Permutation Sorted.
From stdpp Require Import gmap strings list.

Local Open Scope Z_scope.

(** ** Data model *)

(** [type VehicleType = "bike" | "car" | "truck" | "bus"]: at run time a
    string, used as the key of [pricingRules]. *)
Definition VehicleType := string.

Inductive Status := active | completed.

Definition Status_eqb (a b : Status) : bool :=
  match a, b with
  | active, active | completed, completed => true
  | _, _ => false
  end.

(** [interface ParkingSession]; the fields marked [?] are options. *)
Record ParkingSession := mkSession {
  ps_id : string;
  ps_vehicleNumber : string;
  ps_vehicleType : VehicleType;
  ps_entryTime : Z;
  ps_exitTime : option Z;
  ps_amount : option Z;
  ps_durationMinutes : option Z;
  ps_isFree : option bool;
  ps_proofImage : option string;
  ps_status : Status
}.

(** [interface MembershipPass] *)
Record MembershipPass := mkPass {
  mp_id : string;
  mp_vehicleNumber : string;
  mp_vehicleType : VehicleType;
  mp_holderName : string;
  mp_expiryDate : Z
}.

(** [interface PricingRule] *)
Record PricingRule := mkRule {
  hours : Z;
  amount : Z
}.

(** The result of [calculateBill]: [{ amount, durationMinutes }]. *)
Record Bill := mkBill {
  bill_amount : Z;
  bill_durationMinutes : Z
}.

(** ** JavaScript and date-fns primitives used by the component *)

Module JS.

(** Truthiness of an optional boolean ([session.isFree]). *)
Definition truthy_bool (b : option bool) : bool :=
  match b with Some true => true | _ => false end.

(** Truthiness of a string: the empty string is falsy. *)
Definition truthy_string (s : string) : bool :=
  match s with EmptyString => false | _ => true end.

(** Truthiness of [number | null] ([getUserId()]): [null] and [0] are
    falsy. *)
Definition truthy_num (n : option Z) : bool :=
  match n with Some k => negb (k =? 0) | None => false end.

(** [x || d] on an optional number: [undefined] and [0] give [d]. *)
Definition or_num (x : option Z) (d : Z) : Z :=
  match x with
  | Some k => if k =? 0 then d else k
  | None => d
  end.

(** [Math.ceil(m / 60)] and the like, for integers [m] and [0 < d]. *)
Definition ceil_div (m d : Z) : Z := - ((- m) / d).

(** [Array.prototype.sort(cmp)]: a stable sort.  [x] is placed before the
    first [y] that must not precede it ([cmp x y <= 0]). *)
Fixpoint sort_insert {A} (cmp : A -> A -> Z) (x : A) (l : list A) : list A :=
  match l with
  | [] => [x]
  | y :: l' => if cmp x y <=? 0 then x :: y :: l' else y :: sort_insert cmp x l'
  end.

Fixpoint sort {A} (cmp : A -> A -> Z) (l : list A) : list A :=
  match l with
  | [] => []
  | x :: l' => sort_insert cmp x (sort cmp l')
  end.

End JS.

Module DateFns.

Definition MILLISECONDS_IN_MINUTE : Z := 60000.

(** [differenceInMinutes(left, right)]: the difference of the time values
    in minutes, truncated toward zero. *)
Definition differenceInMinutes (dateLeft dateRight : Z) : Z :=
  Z.quot (dateLeft - dateRight) MILLISECONDS_IN_MINUTE.

(** [isBefore(date, dateToCompare)] *)
Definition isBefore (date dateToCompare : Z) : bool := date <? dateToCompare.

(** [isAfter(date, dateToCompare)] *)
Definition isAfter (date dateToCompare : Z) : bool := dateToCompare <? date.

End DateFns.

(** ** Pricing logic engine *)

(** The settings that [calculateBill] closes over. *)
Record Settings := mkSettings {
  graceTimeMinutes : Z;
  pricingRules : gmap string (list PricingRule)
}.

(** The initial [pricingRules] of the component. *)
Definition defaultPricingRules : gmap string (list PricingRule) :=
  <["bike"%string := [mkRule 1 20; mkRule 12 150; mkRule 24 250]]>
  (<["car"%string := [mkRule 1 50; mkRule 12 500; mkRule 24 900]]>
  (<["truck"%string := [mkRule 1 100; mkRule 12 1000; mkRule 24 1800]]>
  (<["bus"%string := [mkRule 1 80; mkRule 12 800; mkRule 24 1500]]> ∅))).

Definition defaultSettings : Settings := mkSettings 15 defaultPricingRules.

(** [pricingRules[session.vehicleType] || []] *)
Definition currentRulesOf (cfg : Settings) (vt : VehicleType) : list PricingRule :=
  default [] (pricingRules cfg !! vt).

(** [[...currentRules].sort((a, b) => b.hours - a.hours)] *)
Definition sortedRulesOf (currentRules : list PricingRule) : list PricingRule :=
  JS.sort (fun a b => hours b - hours a) currentRules.

(** [currentRules.find(r => r.hours === 1)?.amount || 50] *)
Definition baseHourRateOf (currentRules : list PricingRule) : Z :=
  JS.or_num (amount <$> find (fun r => hours r =? 1) currentRules) 50.

Definition calculateBill (cfg : Settings) (session : ParkingSession) (exitTime : Z) : Bill :=
  if JS.truthy_bool (ps_isFree session) then
    mkBill 0 (DateFns.differenceInMinutes exitTime (ps_entryTime session))
  else
    let start := ps_entryTime session in
    let end_ := exitTime in
    let totalMinutes := DateFns.differenceInMinutes end_ start in
    if totalMinutes <=? graceTimeMinutes cfg then
      mkBill 0 totalMinutes
    else
      let currentRules := currentRulesOf cfg (ps_vehicleType session) in
      let sortedRules := sortedRulesOf currentRules in
      let totalHours := JS.ceil_div totalMinutes 60 in
      let applicableRule := find (fun rule => hours rule <=? totalHours) sortedRules in
      match applicableRule with
      | Some rule => mkBill (amount rule) totalMinutes
      | None =>
          let baseHourRate := baseHourRateOf currentRules in
          mkBill (totalHours * baseHourRate) totalMinutes
      end.

(** A non-exempt car session entered at [t0]. *)
Definition carSession (t0 : Z) : ParkingSession :=
  mkSession "PK-A1B2C3" "TN 18 AV 4064" "car" t0 None None None (Some false) None active.

(** Descending order of thresholds, as produced by the comparator
    [(a, b) => b.hours - a.hours]. *)
Definition hours_desc (a b : PricingRule) : Prop := hours b <= hours a.

(** The three tiers of the boundary example: 1h:50, 12h:500, 24h:900. *)
Definition exampleTiers : list PricingRule :=
  [mkRule 1 50; mkRule 12 500; mkRule 24 900].

(** The rate of the fallback as the specification words it: the amount of
    the tier with threshold 1, the baseline 50 when there is none. *)
Definition spec_hourlyRate (tiers : list PricingRule) : Z :=
  match find (fun r => hours r =? 1) tiers with
  | Some r => amount r
  | None => 50
  end.

(** A session of a category that has no entry in [pricingRules]. *)
Definition tractorSession (t0 : Z) : ParkingSession :=
  mkSession "PK-T0T0T0" "KA 05 MX 0001" "tractor" t0 None None None None None active.

(** An exempt car that stayed two days. *)
Definition exemptSession (t0 : Z) : ParkingSession :=
  mkSession "PK-E0E0E0" "TN 01 AB 1234" "car" t0 None None None (Some true) None active.

(** ** Vehicle number formatter (e.g. TN 18 AV 4064) *)

Module Str.

(** The characters matched by [\s], among ASCII: tab, line feed, vertical
    tab, form feed, carriage return and space. *)
Definition isWhiteSpace (c : ascii) : bool :=
  let n := N_of_ascii c in
  (((9 <=? n) && (n <=? 13)) || (n =? 32))%N.

(** [toUpperCase] on one ASCII character. *)
Definition upperChar (c : ascii) : ascii :=
  let n := N_of_ascii c in
  if ((97 <=? n) && (n <=? 122))%N then ascii_of_N (n - 32) else c.

(** [val.replace(/\s+/g, "")] *)
Definition removeWhiteSpace (l : list ascii) : list ascii :=
  List.filter (fun c => negb (isWhiteSpace c)) l.

Definition toUpperCase (l : list ascii) : list ascii := map upperChar l.

(** [s.substring(start, end)], for [start <= end]. *)
Definition substring (start end_ : nat) (l : list ascii) : list ascii :=
  take (end_ - start) (drop start l).

(** [parts.join(sep)] *)
Fixpoint join (sep : list ascii) (parts : list (list ascii)) : list ascii :=
  match parts with
  | [] => []
  | [p] => p
  | p :: rest => p ++ sep ++ join sep rest
  end.

End Str.

Definition space : ascii := " "%char.

(** The body of [formatVehicleNumber] after [clean] has been computed. *)
Definition formatClean (clean : list ascii) : list ascii :=
  let parts0 := [] in
  let parts1 := if (0 <? length clean)%nat then parts0 ++ [Str.substring 0 2 clean] else parts0 in
  let parts2 := if (2 <? length clean)%nat then parts1 ++ [Str.substring 2 4 clean] else parts1 in
  let parts3 := if (4 <? length clean)%nat then parts2 ++ [Str.substring 4 6 clean] else parts2 in
  let parts4 := if (6 <? length clean)%nat then parts3 ++ [Str.substring 6 10 clean] else parts3 in
  Str.join [space] parts4.

Definition cleanOf (val : list ascii) : list ascii :=
  Str.toUpperCase (Str.removeWhiteSpace val).

Definition formatVehicleNumber (val : string) : string :=
  let clean := cleanOf (list_ascii_of_string val) in
  string_of_list_ascii (formatClean clean).


(** A character that [toUpperCase] leaves as it is. *)
Definition isUpper (c : ascii) : Prop := Str.upperChar c = c.

Definition notSpace (c : ascii) : Prop := Str.isWhiteSpace c = false.

(** ** The component state and the handlers *)

(** The React state read or written by the handlers. *)
Record State := mkState {
  sessions : list ParkingSession;
  passes : list MembershipPass;
  settings : Settings;
  vehicleNumber : string;
  vehicleType : VehicleType;
  isFree : bool;
  proofImage : option string;
  exitId : string;
  currentBill : option ParkingSession;
  showScanner : bool
}.

(** What one run of a handler observes outside the component:
    [getUserId()], the instant returned by [new Date()] during the run,
    the characters drawn from [Math.random()], and whether the database
    call returned an error. *)
Record Env := mkEnv {
  userId : option Z;
  now : Z;
  random : string;
  dbError : bool
}.

Definition setIsFree (b : bool) (st : State) : State :=
  mkState (sessions st) (passes st) (settings st) (vehicleNumber st) (vehicleType st)
          b (proofImage st) (exitId st) (currentBill st) (showScanner st).

Definition setVehicleNumber (v : string) (st : State) : State :=
  mkState (sessions st) (passes st) (settings st) v (vehicleType st)
          (isFree st) (proofImage st) (exitId st) (currentBill st) (showScanner st).

Definition setPasses (ps : list MembershipPass) (st : State) : State :=
  mkState (sessions st) ps (settings st) (vehicleNumber st) (vehicleType st)
          (isFree st) (proofImage st) (exitId st) (currentBill st) (showScanner st).

Inductive EntryResult :=
| EntryNoVehicleNumber                       (* silent return *)
| EntryAuthError                             (* "Authentication error: Please login again" *)
| EntryAlreadyEntered                        (* "This vehicle is already entered in the parking area." *)
| EntryMembershipExpired                     (* "MEMBERSHIP EXPIRED: ..." *)
| EntryDbError                               (* "System Error: Failed to log entry" *)
| EntryAdmitted (newSession : ParkingSession).

Inductive ExitResult :=
| ExitNotFound                               (* "Active session not found" *)
| ExitAuthError                              (* "Authentication error: Please login again" *)
| ExitDbError                                (* "Error: Failed to process exit" *)
| ExitSettled (receipt : ParkingSession).

Inductive RechargeResult :=
| RechargeNoPass                             (* silent return *)
| RechargeAuthError
| RechargeDbError                            (* "Error: Failed to recharge pass." *)
| Recharged (newExpiry : Z).

(** [s.vehicleNumber === vehicleNumber && s.status === "active"] *)
Definition activeFor (v : string) (s : ParkingSession) : bool :=
  (ps_vehicleNumber s =? v)%string && Status_eqb (ps_status s) active.

Definition handleEntry (env : Env) (st : State) : EntryResult * State :=
  if negb (JS.truthy_string (vehicleNumber st)) then (EntryNoVehicleNumber, st) else
  if negb (JS.truthy_num (userId env)) then (EntryAuthError, st) else
  let isActive := find (activeFor (vehicleNumber st)) (sessions st) in
  match isActive with
  | Some _ => (EntryAlreadyEntered, st)
  | None =>
      let existingPass :=
        find (fun p => (mp_vehicleNumber p =? vehicleNumber st)%string) (passes st) in
      let isExpired :=
        match existingPass with
        | Some p => DateFns.isBefore (mp_expiryDate p) (now env)
        | None => false
        end in
      if isExpired then (EntryMembershipExpired, st) else
      let st1 := match existingPass with Some _ => setIsFree true st | None => st end in
      let newSession :=
        mkSession ("PK-" ++ random env) (vehicleNumber st) (vehicleType st) (now env)
                  None None None
                  (Some (match existingPass with Some _ => true | None => isFree st end))
                  (match proofImage st with
                   | Some img => if JS.truthy_string img then Some img else None
                   | None => None
                   end)
                  active in
      if dbError env then (EntryDbError, st1) else
      (EntryAdmitted newSession,
       mkState (newSession :: sessions st) (passes st) (settings st)
               "" (vehicleType st) false None
               (exitId st) (Some newSession) (showScanner st))
  end.

(** [{ ...s, exitTime, amount, durationMinutes, status: "completed" }] *)
Definition closeSession (exitTime : Z) (bill : Bill) (s : ParkingSession) : ParkingSession :=
  mkSession (ps_id s) (ps_vehicleNumber s) (ps_vehicleType s) (ps_entryTime s)
            (Some exitTime) (Some (bill_amount bill)) (Some (bill_durationMinutes bill))
            (ps_isFree s) (ps_proofImage s) completed.

Definition handleExit (env : Env) (idToExit : string) (st : State) : ExitResult * State :=
  let found :=
    find (fun s => (ps_id s =? idToExit)%string || (ps_vehicleNumber s =? idToExit)%string)
         (sessions st) in
  match found with
  | None => (ExitNotFound, st)
  | Some session =>
      if Status_eqb (ps_status session) completed then (ExitNotFound, st) else
      if negb (JS.truthy_num (userId env)) then (ExitAuthError, st) else
      let exitTime := now env in
      let bill := calculateBill (settings st) session exitTime in
      if dbError env then (ExitDbError, st) else
      let updatedSessions :=
        map (fun s => if (ps_id s =? ps_id session)%string
                      then closeSession exitTime bill s else s)
            (sessions st) in
      (ExitSettled (closeSession exitTime bill session),
       mkState updatedSessions (passes st) (settings st)
               (vehicleNumber st) (vehicleType st) (isFree st) (proofImage st)
               "" (Some (closeSession exitTime bill session)) false)
  end.


(** ** Calendar arithmetic behind [addMonths]

    The time value is read in UTC on the proleptic Gregorian calendar, as
    [Date.prototype.getUTC*] does; [civil_from_days] and [days_from_civil]
    are the usual conversions between a day number (days since
    1970-01-01) and a civil date (year, month 1..12, day of month). *)

Module Calendar.

Definition MS_PER_DAY : Z := 86400000.

(** Days from 0000-03-01 to the first of March of the year [y']. *)
Definition yearStart (y' : Z) : Z :=
  365 * y' + y' / 4 - y' / 100 + y' / 400.

(** Days from 0000-03-01 to the first day of the month [mp] (0 is March,
    11 is February) of the year [y'] that starts in March. *)
Definition shiftedMonthStart (y' mp : Z) : Z :=
  yearStart y' + (153 * mp + 2) / 5.

Definition days_from_civil (y m d : Z) : Z :=
  let y' := if m <=? 2 then y - 1 else y in
  let mp := if m <=? 2 then m + 9 else m - 3 in
  shiftedMonthStart y' mp + d - 1 - 719468.

(** The civil date of a day within its 400-year era: year of the era,
    month counted from March, day of month. *)
Definition era_year (doe : Z) : Z :=
  (doe - doe / 1460 + doe / 36524 - doe / 146096) / 365.

Definition era_date (doe : Z) : Z * Z * Z :=
  let yoe := era_year doe in
  let doy := doe - (365 * yoe + yoe / 4 - yoe / 100) in
  let mp := (5 * doy + 2) / 153 in
  let d := doy - (153 * mp + 2) / 5 + 1 in
  (yoe, mp, d).

Definition civil_from_days (z : Z) : Z * Z * Z :=
  let z' := z + 719468 in
  let era := z' / 146097 in
  let doe := z' mod 146097 in
  let '(yoe, mp, d) := era_date doe in
  let m := if mp <? 10 then mp + 3 else mp - 9 in
  let y := yoe + era * 400 + (if m <=? 2 then 1 else 0) in
  (y, m, d).

(** ECMAScript [MakeDay(year, month, date)]: [month] is 0-based and may
    lie outside 0..11, [date] may lie outside the month. *)
Definition makeDay (year month date : Z) : Z :=
  let ym := year + month / 12 in
  let mn := month mod 12 in
  days_from_civil ym (mn + 1) 1 + date - 1.

(** Day number of the first day of the month with index [k = 12 * year +
    month], [month] 0-based. *)
Definition monthStart (k : Z) : Z := makeDay 0 k 1.

End Calendar.

Module DateFnsMonths.

(** [addMonths(date, amount)] of date-fns: the same day of the month
    [amount] months later, or the last day of that month when it is
    shorter; the time of day is kept. *)
Definition addMonths (date amount : Z) : Z :=
  if amount =? 0 then date else
  let day := date / Calendar.MS_PER_DAY in
  let timeInDay := date mod Calendar.MS_PER_DAY in
  let '(year, month, dayOfMonth) := Calendar.civil_from_days day in
  (* endOfDesiredMonth.setMonth(_date.getMonth() + amount + 1, 0) *)
  let endOfDesiredMonth := Calendar.makeDay year (month - 1 + amount + 1) 0 in
  let '(endYear, endMonth, daysInMonth) := Calendar.civil_from_days endOfDesiredMonth in
  if daysInMonth <=? dayOfMonth then
    endOfDesiredMonth * Calendar.MS_PER_DAY + timeInDay
  else
    (* _date.setFullYear(endYear, endMonth, dayOfMonth) *)
    Calendar.makeDay endYear (endMonth - 1) dayOfMonth * Calendar.MS_PER_DAY + timeInDay.

End DateFnsMonths.

(** [{ ...p, expiryDate: newExpiry }] *)
Definition withExpiry (newExpiry : Z) (p : MembershipPass) : MembershipPass :=
  mkPass (mp_id p) (mp_vehicleNumber p) (mp_vehicleType p) (mp_holderName p) newExpiry.

Definition rechargePass (env : Env) (passId : string) (st : State) : RechargeResult * State :=
  match find (fun p => (mp_id p =? passId)%string) (passes st) with
  | None => (RechargeNoPass, st)
  | Some pass =>
      if negb (JS.truthy_num (userId env)) then (RechargeAuthError, st) else
      let currentExpiry := mp_expiryDate pass in
      let baseDate :=
        if DateFns.isAfter currentExpiry (now env) then currentExpiry else now env in
      let newExpiry := DateFnsMonths.addMonths baseDate 1 in
      if dbError env then (RechargeDbError, st) else
      (Recharged newExpiry,
       setPasses (map (fun p => if (mp_id p =? passId)%string
                                then withExpiry newExpiry p else p)
                      (passes st)) st)
  end.

(** ** States, runs and invariants *)







(** A well-behaved environment at instant [t]: a logged-in user, a
    database that accepts the write. *)
Definition envAt (t : Z) (rnd : string) : Env := mkEnv (Some 7) t rnd false.

(** A pass for the plate [TN 18 AV 4064] that expires at instant [e]. *)
Definition passUntil (e : Z) : MembershipPass :=
  mkPass "MS-00FF" "TN 18 AV 4064" "car" "R. Kumar" e.

(** The entry form filled with the plate [TN 18 AV 4064], the exemption
    toggle off, and one pass on record. *)
Definition stateWithPass (e : Z) : State :=
  mkState [] [passUntil e] defaultSettings "TN 18 AV 4064" "car" false None "" None false.

(** Proof device: [p] holds on the [fuel] integers from [z] on. *)
Fixpoint all_from (fuel : nat) (z : Z) (p : Z -> bool) : bool :=
  match fuel with
  | O => true
  | S fuel' => p z && all_from fuel' (z + 1) p
  end.

(** [Calendar.era_year] is right on the first and on the last day of the
    year [y] of an era. *)
Definition year_ok (y : Z) : bool :=
  (Calendar.era_year (Calendar.yearStart y) =? y) &&
  (Calendar.era_year (Calendar.yearStart (y + 1) - 1) =? y).

(** One car parked since instant 0, nothing else. *)
Definition parkedState : State :=
  mkState [carSession 0] [] defaultSettings "" "car" false None "" None false.

(** The state after that car has left at 01:00:00. *)
Definition settledState : State :=
  snd (handleExit (envAt 3600000 "") "TN 18 AV 4064" parkedState).


(** 2024-01-31T10:00:00Z *)
Definition expiryInstant : Z := 1706695200000.

(** ** Further handlers of the component *)

Definition setExitId (v : string) (st : State) : State :=
  mkState (sessions st) (passes st) (settings st) (vehicleNumber st) (vehicleType st)
          (isFree st) (proofImage st) v (currentBill st) (showScanner st).

Definition setShowScanner (b : bool) (st : State) : State :=
  mkState (sessions st) (passes st) (settings st) (vehicleNumber st) (vehicleType st)
          (isFree st) (proofImage st) (exitId st) (currentBill st) b.

Definition setProofImage (img : option string) (st : State) : State :=
  mkState (sessions st) (passes st) (settings st) (vehicleNumber st) (vehicleType st)
          (isFree st) img (exitId st) (currentBill st) (showScanner st).

Definition setVehicleType (vt : VehicleType) (st : State) : State :=
  mkState (sessions st) (passes st) (settings st) (vehicleNumber st) vt
          (isFree st) (proofImage st) (exitId st) (currentBill st) (showScanner st).

Definition setSettings (cfg : Settings) (st : State) : State :=
  mkState (sessions st) (passes st) cfg (vehicleNumber st) (vehicleType st)
          (isFree st) (proofImage st) (exitId st) (currentBill st) (showScanner st).

(** The exemption toggle:
    [setIsFree(!isFree); if (!isFree) setProofImage(null)]. *)
Definition toggleFree (st : State) : State :=
  let st1 := setIsFree (negb (isFree st)) st in
  if negb (isFree st) then setProofImage None st1 else st1.

(** The state [passForm] of the membership form. *)
Record PassForm := mkPassForm {
  pf_vehicleNumber : string;
  pf_vehicleType : VehicleType;
  pf_holderName : string
}.

Definition emptyPassForm : PassForm := mkPassForm "" "car" "".

Inductive MembershipResult :=
| MembershipAuthError                        (* "Authentication error: Please login again" *)
| MembershipDbError                          (* "Error: Vehicle might already have a pass or system offline." *)
| MembershipActivated (newPass : MembershipPass).

Definition createMembership (env : Env) (passForm : PassForm) (st : State)
  : MembershipResult * State * PassForm :=
  if negb (JS.truthy_num (userId env)) then (MembershipAuthError, st, passForm) else
  let newPass :=
    mkPass ("MS-" ++ random env)
           (pf_vehicleNumber passForm) (pf_vehicleType passForm) (pf_holderName passForm)
           (DateFnsMonths.addMonths (now env) 1) in
  if dbError env then (MembershipDbError, st, passForm) else
  (MembershipActivated newPass, setPasses (newPass :: passes st) st, emptyPassForm).

(** The [onScan] callback of the QR scanner; [None] stands for the alert
    "No active session found for this token". *)
Definition onScan (env : Env) (id : string) (st : State) : option ExitResult * State :=
  match find (fun s => (ps_id s =? id)%string && Status_eqb (ps_status s) active)
             (sessions st) with
  | Some session =>
      let r := handleExit env (ps_vehicleNumber session)
                          (setExitId (ps_vehicleNumber session) st) in
      (Some (fst r), snd r)
  | None => (None, setShowScanner false st)
  end.

(** The badge beside the plate field of the entry form. *)
Inductive Badge := BadgeAlreadyEntered | BadgeExpiredMember | BadgeAuthorizedMember.

Definition entryBadge (today : Z) (st : State) : option Badge :=
  if (2 <? String.length (vehicleNumber st))%nat then
    match find (activeFor (vehicleNumber st)) (sessions st) with
    | Some _ => Some BadgeAlreadyEntered
    | None =>
        match find (fun p => (mp_vehicleNumber p =? vehicleNumber st)%string) (passes st) with
        | None => None
        | Some pass =>
            if DateFns.isBefore (mp_expiryDate pass) today
            then Some BadgeExpiredMember else Some BadgeAuthorizedMember
        end
    end
  else None.

(** ** The report tab *)





(** ** The pricing rules editor *)

Definition withRules (rules : gmap string (list PricingRule)) (cfg : Settings) : Settings :=
  mkSettings (graceTimeMinutes cfg) rules.

(** [arr.filter((_, i) => keep(i))] *)
Fixpoint filter_index {A} (keep : nat -> bool) (i : nat) (l : list A) : list A :=
  match l with
  | [] => []
  | x :: l' =>
      if keep i then x :: filter_index keep (S i) l' else filter_index keep (S i) l'
  end.

(** [newRules[type][index].hours = v]; [None] stands for the TypeError
    raised when the category has no table or the table no such row. *)
Definition setRuleHours (vt : VehicleType) (index : nat) (v : Z) (cfg : Settings)
  : option Settings :=
  match pricingRules cfg !! vt with
  | None => None
  | Some rules =>
      match rules !! index with
      | None => None
      | Some r =>
          Some (withRules (<[vt := <[index := mkRule v (amount r)]> rules]> (pricingRules cfg)) cfg)
      end
  end.

(** [newRules[type][index].amount = v] *)
Definition setRuleAmount (vt : VehicleType) (index : nat) (v : Z) (cfg : Settings)
  : option Settings :=
  match pricingRules cfg !! vt with
  | None => None
  | Some rules =>
      match rules !! index with
      | None => None
      | Some r =>
          Some (withRules (<[vt := <[index := mkRule (hours r) v]> rules]> (pricingRules cfg)) cfg)
      end
  end.

(** [newRules[type] = newRules[type].filter((_, i) => i !== index)] *)
Definition removeRule (vt : VehicleType) (index : nat) (cfg : Settings) : option Settings :=
  match pricingRules cfg !! vt with
  | None => None
  | Some rules =>
      Some (withRules (<[vt := filter_index (fun i => negb (i =? index)%nat) 0 rules]>
                         (pricingRules cfg)) cfg)
  end.

(** [newRules[type] = [...newRules[type], { hours: 0, amount: 0 }]] *)
Definition addRule (vt : VehicleType) (cfg : Settings) : option Settings :=
  match pricingRules cfg !! vt with
  | None => None
  | Some rules =>
      Some (withRules (<[vt := rules ++ [mkRule 0 0]]> (pricingRules cfg)) cfg)
  end.

(** [setGraceTimeMinutes(Number(e.target.value))] *)
Definition setGraceTime (g : Z) (cfg : Settings) : Settings :=
  mkSettings g (pricingRules cfg).

(** A table that starts at 12 hours: five hours cost 5 x 50, and nothing
    once the blank rule is there. *)
Definition longStayOnly : Settings :=
  mkSettings 15 (<["car"%string := [mkRule 12 500; mkRule 24 900]]> defaultPricingRules).

(** ** Authentication helpers ([src/lib/auth.ts]) *)

Module Auth.

(** The browser as the helpers see it: whether [window] is defined, the
    local storage, and the address of the page. *)
Record Browser := mkBrowser {
  hasWindow : bool;
  localStorage : gmap string string;
  href : string
}.

Definition isAuthenticated (b : Browser) : bool :=
  if negb (hasWindow b) then false
  else bool_decide (localStorage b !! "isLoggedIn"%string = Some "true"%string).

Definition getUserEmail (b : Browser) : option string :=
  if negb (hasWindow b) then None
  else localStorage b !! "userEmail"%string.

Section WithParseInt.

(** The built-in [parseInt]; [None] stands for [NaN]. *)
Variable parseInt : string -> option Z.

Definition getUserId (b : Browser) : option Z :=
  if negb (hasWindow b) then None
  else
    match localStorage b !! "userId"%string with
    | Some userId => if JS.truthy_string userId then parseInt userId else None
    | None => None
    end.

End WithParseInt.

Definition logout (b : Browser) : Browser :=
  if negb (hasWindow b) then b
  else
    mkBrowser (hasWindow b)
              (delete "userId"%string
                 (delete "userEmail"%string
                    (delete "isLoggedIn"%string (localStorage b))))
              "/login".

End Auth.

(** The session that [handleEntry] opens. *)
Definition entrySession (env : Env) (st : State) : ParkingSession :=
  mkSession ("PK-" ++ random env) (vehicleNumber st) (vehicleType st) (now env)
            None None None
            (Some (match find (fun p => (mp_vehicleNumber p =? vehicleNumber st)%string)
                              (passes st) with
                   | Some _ => true
                   | None => isFree st
                   end))
            (match proofImage st with
             | Some img => if JS.truthy_string img then Some img else None
             | None => None
             end)
            active.

(** ** The operations offered by the user interface *)


(** One interaction with the component.  Plate and exit fields are only
    ever set through [formatVehicleNumber]; the exit is asked for the
    text of the exit field, for a suggested active session, or for a
    scanned token. *)
Inductive ui_step : State -> State -> Prop :=
| ui_typePlate st text : ui_step st (setVehicleNumber (formatVehicleNumber text) st)
| ui_pickType st vt : ui_step st (setVehicleType vt st)
| ui_toggleFree st : ui_step st (toggleFree st)
| ui_upload st img : ui_step st (setProofImage (Some img) st)
| ui_entry env st : ui_step st (snd (handleEntry env st))
| ui_typeExit st text : ui_step st (setExitId (formatVehicleNumber text) st)
| ui_exit env st : ui_step st (snd (handleExit env (exitId st) st))
| ui_suggestion env st s :
    In s (sessions st) -> ps_status s = active ->
    ui_step st (snd (handleExit env (ps_vehicleNumber s)
                                (setExitId (ps_vehicleNumber s) st)))
| ui_scanner st b : ui_step st (setShowScanner b st)
| ui_scan env st id : ui_step st (snd (onScan env id st))
| ui_recharge env st passId : ui_step st (snd (rechargePass env passId st))
| ui_createPass env form st : ui_step st (snd (fst (createMembership env form st)))
| ui_grace st g : ui_step st (setSettings (setGraceTime g (settings st)) st)
| ui_ruleHours st vt i v cfg :
    setRuleHours vt i v (settings st) = Some cfg -> ui_step st (setSettings cfg st)
| ui_ruleAmount st vt i v cfg :
    setRuleAmount vt i v (settings st) = Some cfg -> ui_step st (setSettings cfg st)
| ui_removeRule st vt i cfg :
    removeRule vt i (settings st) = Some cfg -> ui_step st (setSettings cfg st)
| ui_addRule st vt cfg :
    addRule vt (settings st) = Some cfg -> ui_step st (setSettings cfg st).

Inductive ui_run : State -> State -> Prop :=
| ui_run_refl st : ui_run st st
| ui_run_step st1 st2 st3 : ui_run st1 st2 -> ui_step st2 st3 -> ui_run st1 st3.





(** How a pass may differ after some operations: only the expiry
    changes, and it never moves backward. *)
Definition samePass (p p' : MembershipPass) : Prop :=
  mp_id p' = mp_id p /\
  mp_vehicleNumber p' = mp_vehicleNumber p /\
  mp_vehicleType p' = mp_vehicleType p /\
  mp_holderName p' = mp_holderName p /\
  mp_expiryDate p <= mp_expiryDate p'.

Definition passesEvolve (l l' : list MembershipPass) : Prop :=
  exists issued kept, l' = issued ++ kept /\ Forall2 samePass l kept.

(** Every active session is still pending: no exit time, amount or
    duration. *)
Definition pendingWhileActive (l : list ParkingSession) : Prop :=
  Forall (fun s => ps_status s = active ->
                   ps_exitTime s = None /\ ps_amount s = None /\ ps_durationMinutes s = None) l.

(** A browser with a logged-in user. *)
Definition loggedIn : Auth.Browser :=
  Auth.mkBrowser true
    (<["isLoggedIn"%string := "true"%string]>
     (<["userEmail"%string := "gate@example.org"%string]>
      (<["userId"%string := "7"%string]> ∅)))
    "/".

(** * Properties *)

(** ** Facts about the primitives *)

Section SortFacts.
Context {A : Type} (cmp : A -> A -> Z).

Lemma sort_insert_perm x l : Permutation (JS.sort_insert cmp x l) (x :: l).
Proof.
  induction l as [|y l IH]; simpl; [reflexivity|].
  destruct (cmp x y <=? 0); [reflexivity|].
  rewrite IH. apply perm_swap.
Qed.

Lemma sort_perm l : Permutation (JS.sort cmp l) l.
Proof.
  induction l as [|x l IH]; simpl; [reflexivity|].
  rewrite sort_insert_perm. now constructor.
Qed.
End SortFacts.

Lemma sort_insert_desc x l :
  StronglySorted hours_desc l ->
  StronglySorted hours_desc (JS.sort_insert (fun a b => hours b - hours a) x l).
Proof.
  induction 1 as [|y l Hs IH Hall]; simpl.
  - repeat constructor.
  - destruct (Z.leb_spec (hours y - hours x) 0) as [Hle|Hgt].
    + constructor; [now constructor|].
      constructor; [unfold hours_desc; lia|].
      eapply Forall_impl; [exact Hall|]. unfold hours_desc. intros; lia.
    + constructor; [exact IH|].
      eapply Permutation_Forall; [symmetry; apply sort_insert_perm|].
      constructor; [unfold hours_desc; lia | exact Hall].
  Qed.

Lemma sortedRulesOf_desc l : StronglySorted hours_desc (sortedRulesOf l).
Proof.
  unfold sortedRulesOf. induction l as [|x l IH]; simpl.
  - constructor.
  - now apply sort_insert_desc.
Qed.

Lemma sortedRulesOf_perm l : Permutation (sortedRulesOf l) l.
Proof. apply sort_perm. Qed.

(** In a list sorted by descending threshold, the first rule that fits
    [h] has the largest threshold among those that fit. *)
Lemma find_desc_largest h l r :
  StronglySorted hours_desc l ->
  find (fun rule => hours rule <=? h) l = Some r ->
  In r l /\ hours r <= h /\ forall r', In r' l -> hours r' <= h -> hours r' <= hours r.
Proof.
  induction 1 as [|y l Hs IH Hall]; simpl; [discriminate|].
  destruct (Z.leb_spec (hours y) h) as [Hle|Hgt]; intros Hf.
  - injection Hf as <-. split; [now left|]. split; [exact Hle|].
    intros r' [->|Hin] _; [lia|].
    rewrite Forall_forall in Hall. apply Hall. now apply list_elem_of_In.
  - destruct (IH Hf) as (Hin & Hrh & Hmax).
    split; [now right|]. split; [exact Hrh|].
    intros r' [->|Hin'] Hr'; [lia|]. now apply Hmax.
Qed.

Lemma ceil_div_60_spec m :
  60 * (JS.ceil_div m 60 - 1) < m <= 60 * JS.ceil_div m 60.
Proof. unfold JS.ceil_div. Z.div_mod_to_equations. lia. Qed.

Lemma differenceInMinutes_add t n :
  DateFns.differenceInMinutes (t + n * 60000) t = n.
Proof.
  unfold DateFns.differenceInMinutes, DateFns.MILLISECONDS_IN_MINUTE.
  replace (t + n * 60000 - t) with (n * 60000) by lia.
  apply Z.quot_mul. lia.
Qed.

(** For a non-negative interval, truncation is the floor. *)
Lemma differenceInMinutes_nonneg a b :
  b <= a -> DateFns.differenceInMinutes a b = (a - b) / 60000.
Proof.
  intros H. unfold DateFns.differenceInMinutes, DateFns.MILLISECONDS_IN_MINUTE.
  apply Z.quot_div_nonneg; lia.
Qed.

(** ** The tariff computation *)

(** Ninety minutes are two billed hours; only the 1-hour tier fits. *)
Example calculateBill_90min :
  calculateBill defaultSettings (carSession 0) (90 * 60000) = mkBill 50 90.
Proof. vm_compute. reflexivity. Qed.

(** C1. A non-exempt session that stayed longer than the grace period is
    billed by tiers: the billed hours are the minutes divided by 60 and
    rounded up; the tiers of the category, sorted by descending threshold,
    are searched for the first threshold within the billed hours, which is
    the largest such threshold of the table, and its amount is the flat
    fee; when no tier fits, the fee is the billed hours times the amount
    of the 1-hour tier, or times the baseline 50 when the table has none.
    With the tiers 1h:50, 12h:500, 24h:900, exactly 720 minutes are 12
    billed hours and cost 500. *)
Theorem calculateBill_tiered cfg session exitTime :
  0 <= graceTimeMinutes cfg ->
  JS.truthy_bool (ps_isFree session) = false ->
  graceTimeMinutes cfg < DateFns.differenceInMinutes exitTime (ps_entryTime session) ->
  let billedMinutes := DateFns.differenceInMinutes exitTime (ps_entryTime session) in
  let billedHours := JS.ceil_div billedMinutes 60 in
  let tiers := currentRulesOf cfg (ps_vehicleType session) in
  let sorted := sortedRulesOf tiers in
  let bill := calculateBill cfg session exitTime in
  (60 * (billedHours - 1) < billedMinutes <= 60 * billedHours) /\
  Permutation sorted tiers /\
  StronglySorted hours_desc sorted /\
  bill_durationMinutes bill = billedMinutes /\
  match find (fun r => hours r <=? billedHours) sorted with
  | Some r =>
      In r tiers /\ hours r <= billedHours /\
      (forall r', In r' tiers -> hours r' <= billedHours -> hours r' <= hours r) /\
      bill_amount bill = amount r
  | None =>
      (forall r', In r' tiers -> billedHours < hours r') /\
      bill_amount bill = billedHours * spec_hourlyRate tiers
  end /\
  (exitTime = ps_entryTime session + 720 * 60000 ->
   tiers = exampleTiers ->
   billedHours = 12 /\ bill = mkBill 500 720).
Proof.
  intros Hgrace Hfree Hlong billedMinutes billedHours tiers sorted bill.
  pose proof (ceil_div_60_spec billedMinutes) as Hceil.
  pose proof (sortedRulesOf_perm tiers) as Hperm.
  pose proof (sortedRulesOf_desc tiers) as Hdesc.
  assert (Hbill : bill =
    match find (fun r => hours r <=? billedHours) sorted with
    | Some r => mkBill (amount r) billedMinutes
    | None => mkBill (billedHours * baseHourRateOf tiers) billedMinutes
    end).
  { subst bill. unfold calculateBill. rewrite Hfree.
    fold billedMinutes.
    destruct (Z.leb_spec billedMinutes (graceTimeMinutes cfg)); [lia|].
    reflexivity. }
  split; [exact Hceil|]. split; [exact Hperm|]. split; [exact Hdesc|].
  split; [|split].
  - rewrite Hbill. now destruct (find _ sorted).
  - destruct (find (fun r => hours r <=? billedHours) sorted) as [r|] eqn:Hfind.
    + destruct (find_desc_largest _ _ _ Hdesc Hfind) as (Hin & Hle & Hmax).
      split; [eapply Permutation_in; eassumption|]. split; [exact Hle|].
      split; [|now rewrite Hbill].
      intros r' Hin'. apply Hmax. eapply Permutation_in; [symmetry|]; eassumption.
    + assert (Hall : forall r', In r' tiers -> billedHours < hours r').
      { intros r' Hin'.
        assert (Hs : In r' sorted) by (eapply Permutation_in; [symmetry|]; eassumption).
        pose proof (find_none _ _ Hfind r' Hs) as Hf. simpl in Hf. lia. }
      split; [exact Hall|]. rewrite Hbill. simpl. f_equal.
      unfold baseHourRateOf, spec_hourlyRate.
      destruct (find (fun r => hours r =? 1) tiers) as [r1|] eqn:H1; [|reflexivity].
      exfalso. apply find_some in H1 as [Hin1 Heq1].
      specialize (Hall r1 Hin1). lia.
  - intros Hexit Htiers.
    assert (Hm : billedMinutes = 720).
    { subst billedMinutes. rewrite Hexit. apply differenceInMinutes_add. }
    assert (Hh : billedHours = 12) by (subst billedHours; now rewrite Hm).
    split; [exact Hh|]. rewrite Hbill. subst sorted. rewrite Htiers, Hh, Hm.
    reflexivity.
Qed.

Lemma calculateBill_tiered_witness :
  JS.ceil_div (DateFns.differenceInMinutes (720 * 60000) (ps_entryTime (carSession 0))) 60 = 12 /\
  calculateBill defaultSettings (carSession 0) (720 * 60000) = mkBill 500 720.
Proof.
  refine (proj2 (proj2 (proj2 (proj2 (proj2
    (calculateBill_tiered defaultSettings (carSession 0) (720 * 60000) _ _ _))))) _ _).
  - vm_compute. discriminate.
  - reflexivity.
  - vm_compute. reflexivity.
  - reflexivity.
  - vm_compute. reflexivity.
Defined.

(** C2 (as stated, refuted). For a category without tariff the engine does
    not refuse: after 90 minutes an unknown category is charged 2 hours at
    the baseline 50, and so is a category whose table is empty. *)
Lemma calculateBill_unknown_category_priced :
  pricingRules defaultSettings !! ps_vehicleType (tractorSession 0) = None /\
  calculateBill defaultSettings (tractorSession 0) (90 * 60000) = mkBill 100 90 /\
  calculateBill (mkSettings 15 (<["car"%string := []]> defaultPricingRules))
                (carSession 0) (90 * 60000) = mkBill 100 90.
Proof. vm_compute. repeat split; reflexivity. Qed.

(** C2 (amended). With an unknown category or an empty table the
    computation still returns a bill: 0 for an exempt session and within
    the grace period, otherwise the billed hours at the baseline 50. *)
Theorem calculateBill_no_tariff cfg session exitTime :
  pricingRules cfg !! ps_vehicleType session = None \/
  pricingRules cfg !! ps_vehicleType session = Some [] ->
  let billedMinutes := DateFns.differenceInMinutes exitTime (ps_entryTime session) in
  calculateBill cfg session exitTime =
    if JS.truthy_bool (ps_isFree session) then mkBill 0 billedMinutes
    else if billedMinutes <=? graceTimeMinutes cfg then mkBill 0 billedMinutes
    else mkBill (JS.ceil_div billedMinutes 60 * 50) billedMinutes.
Proof.
  intros Hcfg billedMinutes. unfold calculateBill. fold billedMinutes.
  assert (Hrules : currentRulesOf cfg (ps_vehicleType session) = []).
  { unfold currentRulesOf. now destruct Hcfg as [-> | ->]. }
  rewrite Hrules. reflexivity.
Qed.

Lemma calculateBill_no_tariff_witness :
  calculateBill defaultSettings (tractorSession 0) (61 * 60000) = mkBill 100 61.
Proof.
  rewrite (calculateBill_no_tariff defaultSettings (tractorSession 0) (61 * 60000)).
  - reflexivity.
  - left. vm_compute. reflexivity.
Defined.

(** C5 (as stated, refuted). An exit two minutes before the entry is not
    rejected: the bill carries the negative duration -2, which is not
    [max 0 (-2)]. *)
Lemma calculateBill_negative_interval :
  calculateBill defaultSettings (carSession 120000) 0 = mkBill 0 (-2) /\
  bill_durationMinutes (calculateBill defaultSettings (carSession 120000) 0) <>
    Z.max 0 (DateFns.differenceInMinutes 0 (ps_entryTime (carSession 120000))).
Proof. vm_compute. split; [reflexivity | discriminate]. Qed.

(** C5 (amended). The computation always returns a bill, whose duration is
    the signed difference in whole minutes, truncated toward zero: it is
    [max 0] of the difference when the exit is not before the entry, and
    it is not positive when the exit precedes the entry, in which case a
    non-negative grace period makes the amount 0. *)
Theorem calculateBill_duration cfg session exitTime :
  let bill := calculateBill cfg session exitTime in
  let minutes := DateFns.differenceInMinutes exitTime (ps_entryTime session) in
  bill_durationMinutes bill = minutes /\
  (ps_entryTime session <= exitTime -> bill_durationMinutes bill = Z.max 0 minutes) /\
  (exitTime < ps_entryTime session ->
   bill_durationMinutes bill <= 0 /\
   (0 <= graceTimeMinutes cfg -> bill_amount bill = 0)).
Proof.
  intros bill minutes.
  assert (Hd : bill_durationMinutes bill = minutes).
  { subst bill. unfold calculateBill. fold minutes.
    destruct (JS.truthy_bool _); [reflexivity|].
    destruct (_ <=? _); [reflexivity|].
    now destruct (find _ _). }
  split; [exact Hd|]. split.
  - intros Hle. rewrite Hd. subst minutes.
    rewrite differenceInMinutes_nonneg by exact Hle.
    Z.div_mod_to_equations. lia.
  - intros Hlt.
    assert (Hneg : minutes <= 0).
    { subst minutes. unfold DateFns.differenceInMinutes, DateFns.MILLISECONDS_IN_MINUTE.
      apply Z.quot_le_upper_bound; lia. }
    split; [lia|]. intros Hgrace. subst bill. unfold calculateBill. fold minutes.
    destruct (JS.truthy_bool _); [reflexivity|].
    destruct (Z.leb_spec minutes (graceTimeMinutes cfg)); [reflexivity | lia].
Qed.

(** The car of the counterexample: the exit precedes the entry. *)
Lemma calculateBill_duration_witness :
  bill_durationMinutes (calculateBill defaultSettings (carSession 120000) 0) <= 0 /\
  bill_amount (calculateBill defaultSettings (carSession 120000) 0) = 0.
Proof.
  destruct (proj2 (proj2 (calculateBill_duration defaultSettings (carSession 120000) 0))
              ltac:(cbn; lia)) as [Hd Ha].
  split; [exact Hd | apply Ha; cbn; lia].
Defined.

(** C8. A non-exempt session whose minutes do not exceed the grace period,
    the boundary included, costs nothing. *)
Theorem calculateBill_grace cfg session exitTime :
  JS.truthy_bool (ps_isFree session) = false ->
  DateFns.differenceInMinutes exitTime (ps_entryTime session) <= graceTimeMinutes cfg ->
  bill_amount (calculateBill cfg session exitTime) = 0.
Proof.
  intros Hfree Hle. unfold calculateBill. rewrite Hfree.
  destruct (Z.leb_spec (DateFns.differenceInMinutes exitTime (ps_entryTime session))
                       (graceTimeMinutes cfg)); [reflexivity | lia].
Qed.

(** At the boundary: 15 minutes with the default grace period of 15. *)
Lemma calculateBill_grace_witness :
  DateFns.differenceInMinutes (15 * 60000) (ps_entryTime (carSession 0)) = 15 /\
  bill_amount (calculateBill defaultSettings (carSession 0) (15 * 60000)) = 0.
Proof.
  split; [reflexivity|].
  apply (calculateBill_grace defaultSettings (carSession 0) (15 * 60000)).
  - reflexivity.
  - vm_compute. discriminate.
Defined.

(** C9. An exempt session costs nothing whatever the elapsed time, and the
    reported duration is still the elapsed whole minutes between entry and
    exit. *)
Theorem calculateBill_exempt cfg session exitTime :
  JS.truthy_bool (ps_isFree session) = true ->
  let bill := calculateBill cfg session exitTime in
  bill_amount bill = 0 /\
  bill_durationMinutes bill = DateFns.differenceInMinutes exitTime (ps_entryTime session) /\
  (ps_entryTime session <= exitTime ->
   60000 * bill_durationMinutes bill <= exitTime - ps_entryTime session
     < 60000 * (bill_durationMinutes bill + 1)).
Proof.
  intros Hfree bill. subst bill. unfold calculateBill. rewrite Hfree. simpl.
  split; [reflexivity|]. split; [reflexivity|].
  intros Hle. rewrite differenceInMinutes_nonneg by exact Hle.
  Z.div_mod_to_equations. lia.
Qed.

Lemma calculateBill_exempt_witness :
  calculateBill defaultSettings (exemptSession 0) (2880 * 60000) = mkBill 0 2880.
Proof.
  destruct (calculateBill_exempt defaultSettings (exemptSession 0) (2880 * 60000) eq_refl)
    as (Ha & Hd & _).
  destruct (calculateBill defaultSettings (exemptSession 0) (2880 * 60000)) as [a d].
  simpl in Ha, Hd. rewrite Ha, Hd. reflexivity.
Defined.

(** ** The plate formatter *)

Example formatVehicleNumber_plate :
  formatVehicleNumber "tn18 av4064xyz" = "TN 18 AV 4064"%string.
Proof. vm_compute. reflexivity. Qed.

Example formatVehicleNumber_short :
  formatVehicleNumber " ka0 5m" = "KA 05 M"%string.
Proof. vm_compute. reflexivity. Qed.

Lemma upperChar_idem c : Str.upperChar (Str.upperChar c) = Str.upperChar c.
Proof. destruct c as [[] [] [] [] [] [] [] []]; reflexivity. Qed.

Lemma upperChar_space c : Str.isWhiteSpace (Str.upperChar c) = Str.isWhiteSpace c.
Proof. destruct c as [[] [] [] [] [] [] [] []]; reflexivity. Qed.

Lemma cleanOf_upper val : Forall isUpper (cleanOf val).
Proof.
  unfold cleanOf, Str.toUpperCase. apply Forall_map, Forall_true.
  intros c. apply upperChar_idem.
Qed.

Lemma cleanOf_notSpace val : Forall notSpace (cleanOf val).
Proof.
  unfold cleanOf, Str.toUpperCase, Str.removeWhiteSpace.
  induction val as [|c val IH]; simpl; [constructor|].
  destruct (Str.isWhiteSpace c) eqn:Hc; simpl; [exact IH|].
  constructor; [|exact IH]. unfold notSpace. now rewrite upperChar_space.
Qed.

Lemma removeWhiteSpace_id l : Forall notSpace l -> Str.removeWhiteSpace l = l.
Proof.
  induction 1 as [|c l Hc _ IH]; [reflexivity|].
  unfold Str.removeWhiteSpace in *. simpl. rewrite Hc. simpl. now rewrite IH.
Qed.

Lemma toUpperCase_id l : Forall isUpper l -> Str.toUpperCase l = l.
Proof.
  induction 1 as [|c l Hc _ IH]; [reflexivity|].
  unfold Str.toUpperCase in *. simpl. now rewrite Hc, IH.
Qed.

Lemma cleanOf_id l : Forall notSpace l -> Forall isUpper l -> cleanOf l = l.
Proof.
  intros Hs Hu. unfold cleanOf. rewrite removeWhiteSpace_id by exact Hs.
  now apply toUpperCase_id.
Qed.

(** Splits a list into its first ten elements, one case per length. *)
Ltac first_ten l :=
  do 10 (destruct l as [|? l]; [try reflexivity|]).

(** The formatter reads the first ten characters of [clean] only. *)
Lemma formatClean_take10 clean : formatClean (take 10 clean) = formatClean clean.
Proof. first_ten clean. destruct clean; reflexivity. Qed.


(** Discharges one length case: every character is known not to be a
    space, so the filter keeps it. *)
Ltac keep_chars H :=
  repeat (apply Forall_cons in H as [? H]);
  unfold formatClean, Str.removeWhiteSpace; simpl;
  repeat match goal with
         | Hc : notSpace ?c |- _ => unfold notSpace in Hc; rewrite Hc; clear Hc
         end;
  reflexivity.

Lemma removeWhiteSpace_formatClean clean :
  Forall notSpace clean -> Str.removeWhiteSpace (formatClean clean) = take 10 clean.
Proof.
  intros H. rewrite <- formatClean_take10.
  assert (H10 : Forall notSpace (take 10 clean)) by now apply Forall_take.
  clear H. revert H10.
  do 10 (destruct clean as [|? clean]; [intros H10; keep_chars H10|]).
  destruct clean; intros H10; keep_chars H10.
Qed.


Lemma cleanOf_formatClean clean :
  Forall notSpace clean -> Forall isUpper clean ->
  cleanOf (formatClean clean) = take 10 clean.
Proof.
  intros Hs Hu. unfold cleanOf.
  rewrite removeWhiteSpace_formatClean by exact Hs.
  apply toUpperCase_id. now apply Forall_take.
Qed.

Lemma list_ascii_of_string_app (a b : string) :
  list_ascii_of_string (a ++ b) = list_ascii_of_string a ++ list_ascii_of_string b.
Proof. induction a as [|c a IH]; simpl; [reflexivity | now rewrite IH]. Qed.

Lemma cleanOf_app a b : cleanOf (a ++ b) = cleanOf a ++ cleanOf b.
Proof.
  unfold cleanOf, Str.toUpperCase, Str.removeWhiteSpace.
  now rewrite List.filter_app, map_app.
Qed.

Lemma cleanOf_length l : length (cleanOf l) = length (Str.removeWhiteSpace l).
Proof. unfold cleanOf, Str.toUpperCase. apply length_map. Qed.




(** ** Calendar facts *)

Lemma all_from_spec fuel z p :
  all_from fuel z p = true ->
  forall k, z <= k < z + Z.of_nat fuel -> p k = true.
Proof.
  revert z. induction fuel as [|fuel IH]; intros z H k Hk; [lia|].
  cbn [all_from] in H. apply andb_true_iff in H as [Hz Hrest].
  destruct (Z.eq_dec k z) as [->|Hne]; [exact Hz|].
  apply (IH (z + 1) Hrest). lia.
Qed.

(** Checked by evaluation on the 400 years of an era. *)
Lemma year_ok_all : all_from 400 0 year_ok = true.
Proof. vm_compute. reflexivity. Qed.

Lemma year_ok_at y :
  0 <= y < 400 ->
  Calendar.era_year (Calendar.yearStart y) = y /\
  Calendar.era_year (Calendar.yearStart (y + 1) - 1) = y.
Proof.
  intros H. pose proof (all_from_spec _ _ _ year_ok_all y ltac:(lia)) as Hok.
  unfold year_ok in Hok. apply andb_true_iff in Hok as [H1 H2].
  now apply Z.eqb_eq in H1, H2.
Qed.

(** The numerator of [era_year] does not decrease from a day to the next. *)
Lemma era_year_step a :
  0 <= a < 146096 -> Calendar.era_year a <= Calendar.era_year (a + 1).
Proof.
  intros H. unfold Calendar.era_year. apply Z.div_le_mono; [lia|].
  Z.div_mod_to_equations. lia.
Qed.

Lemma era_year_mono a b :
  0 <= a -> a <= b -> b < 146097 -> Calendar.era_year a <= Calendar.era_year b.
Proof.
  intros Ha Hab Hb.
  assert (Hn : forall n : nat, a + Z.of_nat n < 146097 ->
                               Calendar.era_year a <= Calendar.era_year (a + Z.of_nat n)).
  { induction n as [|n IH]; intros Hlt.
    - replace (a + Z.of_nat 0) with a by lia. lia.
    - replace (a + Z.of_nat (S n)) with (a + Z.of_nat n + 1) by lia.
      pose proof (era_year_step (a + Z.of_nat n)). lia. }
  specialize (Hn (Z.to_nat (b - a))).
  replace (a + Z.of_nat (Z.to_nat (b - a))) with b in Hn by lia.
  apply Hn. lia.
Qed.

Lemma yearStart_succ y : Calendar.yearStart y + 365 <= Calendar.yearStart (y + 1).
Proof. unfold Calendar.yearStart. Z.div_mod_to_equations. lia. Qed.

Lemma yearStart_succ_le y : Calendar.yearStart (y + 1) <= Calendar.yearStart y + 366.
Proof. unfold Calendar.yearStart. Z.div_mod_to_equations. lia. Qed.

(** The year of a day of the era is the year whose days contain it. *)
Lemma era_year_spec doe :
  0 <= doe < 146097 ->
  0 <= Calendar.era_year doe <= 399 /\
  Calendar.yearStart (Calendar.era_year doe) <= doe
    < Calendar.yearStart (Calendar.era_year doe + 1).
Proof.
  intros Hdoe. set (y := Calendar.era_year doe).
  assert (H0 : Calendar.yearStart 0 = 0) by reflexivity.
  assert (H400 : Calendar.yearStart 400 = 146097) by reflexivity.
  assert (Hlo : 0 <= y).
  { pose proof (era_year_mono 0 doe) as Hmono.
    pose proof (proj1 (year_ok_at 0 ltac:(lia))) as Hfirst.
    rewrite H0 in Hfirst. subst y. lia. }
  assert (Hhi : y <= 399).
  { pose proof (era_year_mono doe 146096) as Hmono.
    pose proof (proj2 (year_ok_at 399 ltac:(lia))) as Hlast.
    change (399 + 1) with 400 in Hlast. rewrite H400 in Hlast.
    change (146097 - 1) with 146096 in Hlast. subst y. lia. }
  split; [lia|]. split.
  - (* a day before the year [y] would have a smaller year *)
    destruct (Z.le_gt_cases (Calendar.yearStart y) doe) as [?|Hgt]; [assumption|].
    exfalso.
    assert (Hy : 1 <= y).
    { destruct (Z.eq_dec y 0) as [Hz|]; [|lia]. rewrite Hz, H0 in Hgt. lia. }
    pose proof (proj2 (year_ok_at (y - 1) ltac:(lia))) as Hprev.
    replace (y - 1 + 1) with y in Hprev by lia.
    assert (Hys : Calendar.yearStart y <= 146097).
    { clear - Hlo Hhi. unfold Calendar.yearStart. Z.div_mod_to_equations. lia. }
    pose proof (era_year_mono doe (Calendar.yearStart y - 1)) as Hmono.
    fold y in Hmono. lia.
  - (* a day after the year [y] would have a larger year *)
    destruct (Z.lt_ge_cases doe (Calendar.yearStart (y + 1))) as [?|Hge]; [assumption|].
    exfalso.
    assert (Hy : y < 399).
    { destruct (Z.eq_dec y 399) as [Hz|]; [|lia].
      rewrite Hz in Hge. change (399 + 1) with 400 in Hge. lia. }
    pose proof (proj1 (year_ok_at (y + 1) ltac:(lia))) as Hnext.
    assert (Hys : 0 <= Calendar.yearStart (y + 1)).
    { clear - Hlo. unfold Calendar.yearStart. Z.div_mod_to_equations. lia. }
    pose proof (era_year_mono (Calendar.yearStart (y + 1)) doe) as Hmono.
    fold y in Hmono. lia.
Qed.

(** The date of a day of the era: the components are in range, the date
    converts back to the day, and the day precedes the first day of the
    next month. *)
Lemma era_date_spec doe yoe mp d :
  0 <= doe < 146097 ->
  Calendar.era_date doe = (yoe, mp, d) ->
  0 <= yoe <= 399 /\ 0 <= mp <= 11 /\ 1 <= d /\
  Calendar.shiftedMonthStart yoe mp + d - 1 = doe /\
  doe < (if mp <? 11 then Calendar.shiftedMonthStart yoe (mp + 1)
         else Calendar.shiftedMonthStart (yoe + 1) 0).
Proof.
  intros Hdoe Heq. unfold Calendar.era_date in Heq.
  destruct (era_year_spec doe Hdoe) as (Hy & Hlo & Hhi).
  set (y := Calendar.era_year doe) in *.
  pose proof (yearStart_succ_le y) as Hlen.
  assert (Hys : Calendar.yearStart y = 365 * y + y / 4 - y / 100).
  { unfold Calendar.yearStart. replace (y / 400) with 0; [lia|].
    Z.div_mod_to_equations. lia. }
  rewrite <- Hys in Heq.
  set (doy := doe - Calendar.yearStart y) in *.
  assert (Hdoy : 0 <= doy <= 365) by (subst doy; lia).
  injection Heq as <- <- <-.
  unfold Calendar.shiftedMonthStart.
  destruct (Z.ltb_spec ((5 * doy + 2) / 153) 11).
  - repeat split; try lia; Z.div_mod_to_equations; lia.
  - repeat split; try lia;
      try (change ((153 * 0 + 2) / 5) with 0); Z.div_mod_to_equations; lia.
Qed.

(** [monthStart] in terms of the civil year and the month 1..12. *)
Lemma monthStart_civil y m :
  1 <= m <= 12 ->
  Calendar.monthStart (12 * y + (m - 1)) = Calendar.days_from_civil y m 1.
Proof.
  intros Hm. unfold Calendar.monthStart, Calendar.makeDay.
  replace ((12 * y + (m - 1)) / 12) with y by (Z.div_mod_to_equations; lia).
  replace ((12 * y + (m - 1)) mod 12) with (m - 1) by (Z.div_mod_to_equations; lia).
  replace (m - 1 + 1) with m by lia. replace (0 + y) with y by lia. lia.
Qed.

Lemma monthStart_next y m :
  1 <= m <= 12 ->
  Calendar.monthStart (12 * y + m) =
    if m <? 12 then Calendar.days_from_civil y (m + 1) 1
    else Calendar.days_from_civil (y + 1) 1 1.
Proof.
  intros Hm. destruct (Z.ltb_spec m 12).
  - rewrite <- monthStart_civil by lia. f_equal. lia.
  - rewrite <- monthStart_civil by lia. f_equal. lia.
Qed.

Lemma days_from_civil_day y m d :
  Calendar.days_from_civil y m d = Calendar.days_from_civil y m 1 + (d - 1).
Proof. unfold Calendar.days_from_civil. lia. Qed.

Lemma civil_from_days_spec z y m d :
  Calendar.civil_from_days z = (y, m, d) ->
  1 <= m <= 12 /\ 1 <= d /\
  Calendar.days_from_civil y m d = z /\
  z < Calendar.monthStart (12 * y + m).
Proof.
  unfold Calendar.civil_from_days.
  set (z' := z + 719468).
  assert (Hdoe : 0 <= z' mod 146097 < 146097) by (apply Z.mod_pos_bound; lia).
  assert (Hz' : z' = 146097 * (z' / 146097) + z' mod 146097) by (apply Z.div_mod; lia).
  set (era := z' / 146097) in *. set (doe := z' mod 146097) in *.
  destruct (Calendar.era_date doe) as [[yoe mp] dd] eqn:Hdate.
  destruct (era_date_spec doe yoe mp dd Hdoe Hdate) as (Hyoe & Hmp' & H1 & H0 & H).
  intros Heq.
  assert (Hmp : mp = 0 \/ mp = 1 \/ mp = 2 \/ mp = 3 \/ mp = 4 \/ mp = 5 \/
                mp = 6 \/ mp = 7 \/ mp = 8 \/ mp = 9 \/ mp = 10 \/ mp = 11) by lia.
  repeat (destruct Hmp as [-> | Hmp]); try subst mp.
  all: simpl in Heq; injection Heq as <- <- <-.
  all: rewrite monthStart_next by lia.
  all: unfold Calendar.days_from_civil.
  all: repeat match goal with
         | |- context [if ?b then _ else _] =>
             let v := eval vm_compute in b in change b with v; cbv iota
         | H : context [if ?b then _ else _] |- _ =>
             let v := eval vm_compute in b in change b with v in H; cbv iota in H
         end.
  all: unfold Calendar.shiftedMonthStart, Calendar.yearStart in *.
  all: subst z'; clear Hdate; clearbody doe era.
  all: repeat split; try lia.
  all: Z.div_mod_to_equations; lia.
Qed.

Lemma makeDay_monthStart y mo dt :
  Calendar.makeDay y mo dt = Calendar.monthStart (12 * y + mo) + dt - 1.
Proof.
  unfold Calendar.monthStart, Calendar.makeDay.
  replace (0 + (12 * y + mo) / 12) with (y + mo / 12) by (Z.div_mod_to_equations; lia).
  replace ((12 * y + mo) mod 12) with (mo mod 12) by (Z.div_mod_to_equations; lia).
  lia.
Qed.

(** Every month has at least 27 days (in fact 28). *)
Lemma monthStart_succ k : Calendar.monthStart k + 27 <= Calendar.monthStart (k + 1).
Proof.
  set (y := k / 12). set (m := k mod 12 + 1).
  assert (Hm : 1 <= m <= 12) by (subst m; Z.div_mod_to_equations; lia).
  assert (Hk : k = 12 * y + (m - 1)) by (subst y m; Z.div_mod_to_equations; lia).
  rewrite Hk. replace (12 * y + (m - 1) + 1) with (12 * y + m) by lia.
  rewrite monthStart_civil, monthStart_next by lia.
  clearbody y m. clear Hk k.
  assert (Hcases : m = 1 \/ m = 2 \/ m = 3 \/ m = 4 \/ m = 5 \/ m = 6 \/
                   m = 7 \/ m = 8 \/ m = 9 \/ m = 10 \/ m = 11 \/ m = 12) by lia.
  repeat (destruct Hcases as [-> | Hcases]); try subst m.
  all: unfold Calendar.days_from_civil.
  all: repeat match goal with
         | |- context [if ?b then _ else _] =>
             let v := eval vm_compute in b in change b with v; cbv iota
         end.
  all: unfold Calendar.shiftedMonthStart, Calendar.yearStart.
  all: Z.div_mod_to_equations; lia.
Qed.

Lemma monthStart_lt k k' : k < k' -> Calendar.monthStart k < Calendar.monthStart k'.
Proof.
  intros Hlt.
  assert (Hn : forall n : nat,
             Calendar.monthStart k < Calendar.monthStart (k + 1 + Z.of_nat n)).
  { induction n as [|n IH].
    - replace (k + 1 + Z.of_nat 0) with (k + 1) by lia.
      pose proof (monthStart_succ k). lia.
    - replace (k + 1 + Z.of_nat (S n)) with (k + 1 + Z.of_nat n + 1) by lia.
      pose proof (monthStart_succ (k + 1 + Z.of_nat n)). lia. }
  specialize (Hn (Z.to_nat (k' - k - 1))).
  replace (k + 1 + Z.of_nat (Z.to_nat (k' - k - 1))) with k' in Hn by lia.
  exact Hn.
Qed.

Lemma monthStart_le k k' : k <= k' -> Calendar.monthStart k <= Calendar.monthStart k'.
Proof.
  intros Hle. destruct (Z.eq_dec k k') as [->|Hne]; [lia|].
  pose proof (monthStart_lt k k'). lia.
Qed.

(** One calendar month later is strictly later. *)
Lemma addMonths_later t : t < DateFnsMonths.addMonths t 1.
Proof.
  unfold DateFnsMonths.addMonths. change (1 =? 0) with false. cbv iota.
  unfold Calendar.MS_PER_DAY.
  set (day := t / 86400000). set (timeInDay := t mod 86400000).
  assert (Ht : t = 86400000 * day + timeInDay) by (apply Z.div_mod; lia).
  destruct (Calendar.civil_from_days day) as [[y m] d] eqn:E1.
  apply civil_from_days_spec in E1 as (Hm & Hd & Hback & Hnext).
  set (endDay := Calendar.makeDay y (m - 1 + 1 + 1) 0).
  assert (Hend : endDay = Calendar.monthStart (12 * y + m + 1) - 1).
  { subst endDay. rewrite makeDay_monthStart.
    replace (12 * y + (m - 1 + 1 + 1)) with (12 * y + m + 1) by lia. lia. }
  pose proof (monthStart_succ (12 * y + m)) as Hsucc.
  destruct (Calendar.civil_from_days endDay) as [[ey em] dim] eqn:E2.
  apply civil_from_days_spec in E2 as (Hem & Hdim & Hback2 & Hnext2).
  destruct (Z.leb_spec dim d) as [Hle|Hgt].
  - lia.
  - rewrite makeDay_monthStart.
    rewrite days_from_civil_day, <- monthStart_civil in Hback by lia.
    assert (Hidx : 12 * y + (m - 1) < 12 * ey + (em - 1)).
    { destruct (Z.lt_ge_cases (12 * y + (m - 1)) (12 * ey + (em - 1))) as [?|Hge];
        [assumption|].
      pose proof (monthStart_le (12 * ey + em) (12 * y + m)). lia. }
    pose proof (monthStart_lt _ _ Hidx). lia.
Qed.

Example addMonths_jan31 :
  (* 2024-01-31T10:00:00Z + 1 month = 2024-02-29T10:00:00Z *)
  DateFnsMonths.addMonths 1706695200000 1 = 1709200800000.
Proof. vm_compute. reflexivity. Qed.

Example addMonths_dec15 :
  (* 2023-12-15T00:00:00Z + 1 month = 2024-01-15T00:00:00Z *)
  DateFnsMonths.addMonths 1702598400000 1 = 1705276800000.
Proof. vm_compute. reflexivity. Qed.

(** ** Membership renewal *)



(** ** Entry admission *)

(** What [handleEntry] does to the list of sessions: nothing, or it puts
    a new active session of the vehicle of the form in front, which it
    does only when that vehicle had no active session. *)
Lemma handleEntry_sessions env st :
  sessions (snd (handleEntry env st)) = sessions st \/
  exists s,
    fst (handleEntry env st) = EntryAdmitted s /\
    sessions (snd (handleEntry env st)) = s :: sessions st /\
    find (activeFor (vehicleNumber st)) (sessions st) = None /\
    ps_vehicleNumber s = vehicleNumber st /\
    ps_status s = active.
Proof.
  unfold handleEntry.
  destruct (JS.truthy_string (vehicleNumber st)); cbn [negb]; [|now left].
  destruct (JS.truthy_num (userId env)); cbn [negb]; [|now left].
  destruct (find (activeFor (vehicleNumber st)) (sessions st)) eqn:Hact; [now left|].
  destruct (find _ (passes st)) as [p|].
  - destruct (DateFns.isBefore _ _); [now left|].
    destruct (dbError env); [now left|].
    right. eexists. cbn. repeat split; reflexivity.
  - destruct (dbError env); [now left|].
    right. eexists. cbn. repeat split; reflexivity.
Qed.

(** What [handleExit] does to the list of sessions: nothing, or it closes
    the sessions that carry the identifier of the session it found, which
    was not completed. *)
Lemma handleExit_sessions env idToExit st :
  (snd (handleExit env idToExit st) = st /\
   forall r, fst (handleExit env idToExit st) <> ExitSettled r) \/
  exists session,
    find (fun s => (ps_id s =? idToExit)%string || (ps_vehicleNumber s =? idToExit)%string)
         (sessions st) = Some session /\
    ps_status session = active /\
    let bill := calculateBill (settings st) session (now env) in
    fst (handleExit env idToExit st) = ExitSettled (closeSession (now env) bill session) /\
    sessions (snd (handleExit env idToExit st)) =
      map (fun s => if (ps_id s =? ps_id session)%string
                    then closeSession (now env) bill s else s) (sessions st).
Proof.
  unfold handleExit.
  destruct (find _ (sessions st)) as [session|] eqn:Hfind;
    [|left; split; [reflexivity | discriminate]].
  destruct (ps_status session) eqn:Hst; cbn [Status_eqb];
    [|left; split; [reflexivity | discriminate]].
  destruct (JS.truthy_num (userId env)); cbn [negb];
    [|left; split; [reflexivity | discriminate]].
  destruct (dbError env); [left; split; [reflexivity | discriminate]|].
  right. exists session. cbn. rewrite Hst. repeat split; reflexivity.
Qed.





Lemma activeFor_status v s : activeFor v s = true -> ps_status s = active.
Proof.
  unfold activeFor. intros H. apply andb_true_iff in H as [_ H].
  now destruct (ps_status s).
Qed.






Lemma rechargePass_sessions env passId st :
  sessions (snd (rechargePass env passId st)) = sessions st.
Proof.
  unfold rechargePass.
  destruct (find _ (passes st)); [|reflexivity].
  destruct (JS.truthy_num (userId env)); cbn [negb]; [|reflexivity].
  now destruct (dbError env).
Qed.




(** C3 (as stated, refuted). A pass whose expiry is the very instant of
    the entry is not treated as expired: the vehicle is admitted, as an
    exempt session. *)
Lemma handleEntry_pass_at_expiry_admitted :
  mp_expiryDate (passUntil expiryInstant) = now (envAt expiryInstant "A1B2C3") /\
  fst (handleEntry (envAt expiryInstant "A1B2C3") (stateWithPass expiryInstant)) =
    EntryAdmitted (mkSession "PK-A1B2C3" "TN 18 AV 4064" "car" expiryInstant None None None
                             (Some true) None active) /\
  fst (handleEntry (envAt expiryInstant "A1B2C3") (stateWithPass expiryInstant))
    <> EntryMembershipExpired.
Proof. split; [reflexivity|]. split; [reflexivity | discriminate]. Qed.

(** C3 (amended). For an entry of a vehicle that holds a pass (and has no
    active session): the pass is expired exactly when its expiry lies
    strictly before the present instant, so a pass that expires at the
    instant of the entry is still valid; an expired pass rejects the entry
    as MEMBERSHIP EXPIRED and leaves the state as it was; a valid pass
    admits the vehicle with [isFree = true] whatever the exemption toggle
    of the form says. *)
Theorem handleEntry_membership env st pass :
  JS.truthy_string (vehicleNumber st) = true ->
  JS.truthy_num (userId env) = true ->
  find (activeFor (vehicleNumber st)) (sessions st) = None ->
  find (fun p => (mp_vehicleNumber p =? vehicleNumber st)%string) (passes st) = Some pass ->
  (mp_expiryDate pass < now env ->
   handleEntry env st = (EntryMembershipExpired, st)) /\
  (now env <= mp_expiryDate pass -> dbError env = false ->
   exists s,
     fst (handleEntry env st) = EntryAdmitted s /\
     ps_isFree s = Some true /\
     ps_status s = active /\
     ps_vehicleNumber s = vehicleNumber st /\
     ps_entryTime s = now env /\
     sessions (snd (handleEntry env st)) = s :: sessions st).
Proof.
  intros Hvn Huser Hact Hpass. unfold handleEntry.
  rewrite Hvn, Huser, Hact, Hpass. cbn [negb]. unfold DateFns.isBefore.
  split.
  - intros Hlt. destruct (Z.ltb_spec (mp_expiryDate pass) (now env)); [reflexivity | lia].
  - intros Hle Hdb. destruct (Z.ltb_spec (mp_expiryDate pass) (now env)); [lia|].
    rewrite Hdb. eexists. cbn. repeat split; reflexivity.
Qed.

(** The pass expires one millisecond after the entry; the toggle is off. *)
Lemma handleEntry_membership_witness :
  exists s,
    fst (handleEntry (envAt 999 "A1B2C3") (stateWithPass 1000)) = EntryAdmitted s /\
    ps_isFree s = Some true.
Proof.
  destruct (handleEntry_membership (envAt 999 "A1B2C3") (stateWithPass 1000) (passUntil 1000)
              eq_refl eq_refl eq_refl eq_refl) as [_ Hadmit].
  destruct (Hadmit ltac:(cbn; lia) eq_refl) as (s & Hs & Hfree & _).
  exists s. split; assumption.
Defined.

(** ** One active session per vehicle *)



(** ** Settlement *)







(** * Further properties *)

(** ** Pricing *)

(** The bill of a session that is not exempt. *)
Lemma calculateBill_paid cfg session exitTime :
  JS.truthy_bool (ps_isFree session) = false ->
  let m := DateFns.differenceInMinutes exitTime (ps_entryTime session) in
  let tiers := currentRulesOf cfg (ps_vehicleType session) in
  calculateBill cfg session exitTime =
    if m <=? graceTimeMinutes cfg then mkBill 0 m
    else match find (fun r => hours r <=? JS.ceil_div m 60) (sortedRulesOf tiers) with
         | Some r => mkBill (amount r) m
         | None => mkBill (JS.ceil_div m 60 * baseHourRateOf tiers) m
         end.
Proof. intros Hfree m tiers. unfold calculateBill. now rewrite Hfree. Qed.

Lemma ceil_div_60_mono a b : a <= b -> JS.ceil_div a 60 <= JS.ceil_div b 60.
Proof. intros H. unfold JS.ceil_div. Z.div_mod_to_equations. lia. Qed.

Lemma ceil_div_60_pos m : 0 < m -> 1 <= JS.ceil_div m 60.
Proof. intros H. unfold JS.ceil_div. Z.div_mod_to_equations. lia. Qed.

Lemma differenceInMinutes_mono a b t :
  a <= b -> DateFns.differenceInMinutes a t <= DateFns.differenceInMinutes b t.
Proof.
  intros H. unfold DateFns.differenceInMinutes, DateFns.MILLISECONDS_IN_MINUTE.
  apply Z.quot_le_mono; lia.
Qed.

(** A tier that fits is found, and the one found is the largest. *)
Lemma find_fitting h tiers r0 :
  In r0 tiers -> hours r0 <= h ->
  exists r, find (fun r => hours r <=? h) (sortedRulesOf tiers) = Some r /\
            In r tiers /\ hours r <= h /\
            forall r', In r' tiers -> hours r' <= h -> hours r' <= hours r.
Proof.
  intros Hin Hfit.
  destruct (find (fun r => hours r <=? h) (sortedRulesOf tiers)) as [r|] eqn:Hf.
  - exists r. split; [reflexivity|].
    destruct (find_desc_largest _ _ _ (sortedRulesOf_desc tiers) Hf) as (Hr & Hle & Hmax).
    split; [eapply Permutation_in; [apply sortedRulesOf_perm | exact Hr]|].
    split; [exact Hle|]. intros r' Hr'. apply Hmax.
    eapply Permutation_in; [symmetry; apply sortedRulesOf_perm | exact Hr'].
  - exfalso.
    assert (Hs : In r0 (sortedRulesOf tiers))
      by (eapply Permutation_in; [symmetry; apply sortedRulesOf_perm | exact Hin]).
    pose proof (find_none _ _ Hf r0 Hs) as Hno. cbn in Hno. lia.
Qed.

(** X1. With a non-negative grace period, a tier of at most one hour,
    amounts that are not negative and that grow with the threshold, a
    later exit never costs less than an earlier one. *)
Theorem calculateBill_monotone cfg session exit1 exit2 :
  0 <= graceTimeMinutes cfg ->
  (exists r, In r (currentRulesOf cfg (ps_vehicleType session)) /\ hours r <= 1) ->
  (forall r, In r (currentRulesOf cfg (ps_vehicleType session)) -> 0 <= amount r) ->
  (forall r r', In r (currentRulesOf cfg (ps_vehicleType session)) ->
                In r' (currentRulesOf cfg (ps_vehicleType session)) ->
                hours r <= hours r' -> amount r <= amount r') ->
  exit1 <= exit2 ->
  bill_amount (calculateBill cfg session exit1)
    <= bill_amount (calculateBill cfg session exit2).
Proof.
  intros Hgrace (r0 & Hr0 & Hr01) Hpos Hmono Hexit.
  destruct (JS.truthy_bool (ps_isFree session)) eqn:Hfree.
  - unfold calculateBill. rewrite Hfree. cbn. lia.
  - rewrite !calculateBill_paid by exact Hfree. cbv zeta.
    pose proof (differenceInMinutes_mono exit1 exit2 (ps_entryTime session) Hexit) as Hm.
    set (m1 := DateFns.differenceInMinutes exit1 (ps_entryTime session)) in *.
    set (m2 := DateFns.differenceInMinutes exit2 (ps_entryTime session)) in *.
    set (tiers := currentRulesOf cfg (ps_vehicleType session)) in *.
    destruct (Z.leb_spec m2 (graceTimeMinutes cfg)) as [Hg2|Hg2].
    + destruct (Z.leb_spec m1 (graceTimeMinutes cfg)); [cbn; lia | lia].
    + destruct (find_fitting (JS.ceil_div m2 60) tiers r0 Hr0) as (r2 & -> & Hin2 & Hfit2 & Hmax2).
      { pose proof (ceil_div_60_pos m2). lia. }
      destruct (Z.leb_spec m1 (graceTimeMinutes cfg)) as [Hg1|Hg1].
      * cbn. now apply Hpos.
      * destruct (find_fitting (JS.ceil_div m1 60) tiers r0 Hr0) as (r1 & -> & Hin1 & Hfit1 & _).
        { pose proof (ceil_div_60_pos m1). lia. }
        cbn. apply Hmono; try assumption. apply Hmax2; [exact Hin1|].
        pose proof (ceil_div_60_mono m1 m2 Hm). lia.
Qed.

Lemma calculateBill_monotone_witness :
  bill_amount (calculateBill defaultSettings (carSession 0) (90 * 60000))
    <= bill_amount (calculateBill defaultSettings (carSession 0) (800 * 60000)).
Proof.
  apply (calculateBill_monotone defaultSettings (carSession 0)).
  - cbn. lia.
  - exists (mkRule 1 50). split; [now left | cbn; lia].
  - intros r Hr. cbn in Hr.
    destruct Hr as [<-|[<-|[<-|[]]]]; cbn; lia.
  - intros r r' Hr Hr'. cbn in Hr, Hr'.
    destruct Hr as [<-|[<-|[<-|[]]]]; destruct Hr' as [<-|[<-|[<-|[]]]]; cbn; lia.
  - lia.
Defined.

(** X2. With a non-negative grace period and amounts that are not
    negative, no bill is negative. *)
Theorem calculateBill_nonneg cfg session exitTime :
  0 <= graceTimeMinutes cfg ->
  (forall r, In r (currentRulesOf cfg (ps_vehicleType session)) -> 0 <= amount r) ->
  0 <= bill_amount (calculateBill cfg session exitTime).
Proof.
  intros Hgrace Hpos.
  destruct (JS.truthy_bool (ps_isFree session)) eqn:Hfree.
  - unfold calculateBill. rewrite Hfree. cbn. lia.
  - rewrite calculateBill_paid by exact Hfree. cbv zeta.
    set (m := DateFns.differenceInMinutes exitTime (ps_entryTime session)).
    set (tiers := currentRulesOf cfg (ps_vehicleType session)) in *.
    destruct (Z.leb_spec m (graceTimeMinutes cfg)); [cbn; lia|].
    destruct (find _ (sortedRulesOf tiers)) as [r|] eqn:Hf.
    + cbn. apply Hpos. apply find_some in Hf as [Hin _].
      eapply Permutation_in; [apply sortedRulesOf_perm | exact Hin].
    + cbn. pose proof (ceil_div_60_pos m ltac:(lia)) as Hh.
      assert (Hrate : 0 <= baseHourRateOf tiers).
      { unfold baseHourRateOf.
        destruct (find (fun r => hours r =? 1) tiers) as [r1|] eqn:H1; cbn; [|lia].
        apply find_some in H1 as [Hin1 _]. specialize (Hpos r1 Hin1).
        destruct (amount r1 =? 0); lia. }
      nia.
Qed.

Lemma calculateBill_nonneg_witness :
  0 <= bill_amount (calculateBill defaultSettings (tractorSession 0) (90 * 60000)).
Proof.
  apply (calculateBill_nonneg defaultSettings (tractorSession 0)).
  - cbn. lia.
  - intros r Hr. vm_compute in Hr. destruct Hr.
Defined.

Lemma NoDup_map_eq {A B} (f : A -> B) l x y :
  NoDup (map f l) -> In x l -> In y l -> f x = f y -> x = y.
Proof.
  induction l as [|a l IH]; [intros _ []|].
  cbn [map]. intros Hnd. apply NoDup_cons in Hnd as [Hnotin Hnd].
  intros [<-|Hx] [<-|Hy] Heq.
  - reflexivity.
  - exfalso. apply Hnotin. rewrite Heq. apply list_elem_of_In. now apply in_map.
  - exfalso. apply Hnotin. rewrite <- Heq. apply list_elem_of_In. now apply in_map.
  - now apply IH.
Qed.

(** A search that can only succeed on one element does not depend on the
    order of the list. *)
Lemma find_perm_unique {A} (p : A -> bool) l l' :
  Permutation l l' ->
  (forall x y, In x l -> In y l -> p x = true -> p y = true -> x = y) ->
  find p l = find p l'.
Proof.
  intros Hperm Huniq.
  destruct (find p l) as [x|] eqn:Hx, (find p l') as [y|] eqn:Hy; try reflexivity.
  - apply find_some in Hx as [Hinx Hpx]. apply find_some in Hy as [Hiny Hpy].
    f_equal. apply Huniq; try assumption.
    eapply Permutation_in; [symmetry; exact Hperm | exact Hiny].
  - apply find_some in Hx as [Hinx Hpx].
    assert (Hin' : In x l') by (eapply Permutation_in; eassumption).
    rewrite (find_none _ _ Hy x Hin') in Hpx. discriminate.
  - apply find_some in Hy as [Hiny Hpy].
    assert (Hin : In y l) by (eapply Permutation_in; [symmetry|]; eassumption).
    rewrite (find_none _ _ Hx y Hin) in Hpy. discriminate.
Qed.

Lemma find_sorted_perm h l l' :
  Permutation l l' -> NoDup (map hours l) ->
  find (fun r => hours r <=? h) (sortedRulesOf l)
  = find (fun r => hours r <=? h) (sortedRulesOf l').
Proof.
  intros Hperm Hnd.
  assert (Hsp : Permutation (sortedRulesOf l) (sortedRulesOf l')).
  { rewrite !sortedRulesOf_perm. exact Hperm. }
  destruct (find _ (sortedRulesOf l)) as [x|] eqn:Hx,
           (find _ (sortedRulesOf l')) as [y|] eqn:Hy; try reflexivity.
  - destruct (find_desc_largest _ _ _ (sortedRulesOf_desc l) Hx) as (Hinx & Hfx & Hmx).
    destruct (find_desc_largest _ _ _ (sortedRulesOf_desc l') Hy) as (Hiny & Hfy & Hmy).
    f_equal. apply (NoDup_map_eq hours l); try assumption.
    + eapply Permutation_in; [apply sortedRulesOf_perm | exact Hinx].
    + eapply Permutation_in; [symmetry; exact Hperm|].
      eapply Permutation_in; [apply sortedRulesOf_perm | exact Hiny].
    + assert (hours y <= hours x).
      { apply Hmx; [|exact Hfy]. eapply Permutation_in; [symmetry; exact Hsp | exact Hiny]. }
      assert (hours x <= hours y).
      { apply Hmy; [|exact Hfx]. eapply Permutation_in; [exact Hsp | exact Hinx]. }
      lia.
  - apply find_some in Hx as [Hinx Hpx].
    assert (Hin' : In x (sortedRulesOf l')) by (eapply Permutation_in; eassumption).
    rewrite (find_none _ _ Hy x Hin') in Hpx. discriminate.
  - apply find_some in Hy as [Hiny Hpy].
    assert (Hin : In y (sortedRulesOf l)) by (eapply Permutation_in; [symmetry|]; eassumption).
    rewrite (find_none _ _ Hx y Hin) in Hpy. discriminate.
Qed.

(** X3. When the thresholds of a category are pairwise distinct, the
    order in which its tiers are stored has no effect on any bill. *)
Theorem calculateBill_order_irrelevant cfg cfg' session exitTime :
  graceTimeMinutes cfg = graceTimeMinutes cfg' ->
  Permutation (currentRulesOf cfg (ps_vehicleType session))
              (currentRulesOf cfg' (ps_vehicleType session)) ->
  NoDup (map hours (currentRulesOf cfg (ps_vehicleType session))) ->
  calculateBill cfg session exitTime = calculateBill cfg' session exitTime.
Proof.
  intros Hgrace Hperm Hnd. unfold calculateBill. rewrite Hgrace.
  destruct (JS.truthy_bool (ps_isFree session)); [reflexivity|].
  destruct (_ <=? _); [reflexivity|].
  rewrite (find_sorted_perm _ _ _ Hperm Hnd).
  destruct (find _ (sortedRulesOf _)); [reflexivity|].
  unfold baseHourRateOf. rewrite (find_perm_unique _ _ _ Hperm); [reflexivity|].
  intros x y Hx Hy Hpx Hpy. apply (NoDup_map_eq hours _ x y Hnd Hx Hy).
  apply Z.eqb_eq in Hpx, Hpy. lia.
Qed.

(** The car tiers stored longest first. *)
Lemma calculateBill_order_irrelevant_witness :
  calculateBill defaultSettings (carSession 0) (800 * 60000)
  = calculateBill
      (mkSettings 15 (<["car"%string := [mkRule 24 900; mkRule 12 500; mkRule 1 50]]>
                        defaultPricingRules))
      (carSession 0) (800 * 60000).
Proof.
  apply calculateBill_order_irrelevant.
  - reflexivity.
  - vm_compute. apply Permutation_rev.
  - vm_compute. repeat constructor; rewrite ?list_elem_of_In; cbn; intuition discriminate.
Defined.

(** The first fitting rule after inserting [x] into a list sorted by
    descending threshold: [x] wins when it fits and no fitting rule of
    the list has a larger threshold. *)
Lemma find_sort_insert h x s :
  StronglySorted hours_desc s ->
  find (fun r => hours r <=? h) (JS.sort_insert (fun a b => hours b - hours a) x s) =
    match find (fun r => hours r <=? h) s with
    | Some r => if (hours x <=? h) && (hours r <=? hours x) then Some x else Some r
    | None => if hours x <=? h then Some x else None
    end.
Proof.
  induction 1 as [|y s Hs IH Hall]; cbn [JS.sort_insert find].
  - reflexivity.
  - destruct (Z.leb_spec (hours y - hours x) 0) as [Hyx|Hyx]; cbn [find].
    + destruct (Z.leb_spec (hours x) h) as [Hx|Hx]; cbn [andb].
      * destruct (Z.leb_spec (hours y) h) as [Hy|Hy]; [|lia].
        destruct (Z.leb_spec (hours y) (hours x)); [reflexivity | lia].
      * destruct (Z.leb_spec (hours y) h) as [Hy|Hy]; [reflexivity|].
        destruct (find _ s) as [r|] eqn:Hf; reflexivity.
    + destruct (Z.leb_spec (hours y) h) as [Hy|Hy].
      * destruct (Z.leb_spec (hours x) h) as [Hx|Hx]; cbn [andb]; [|reflexivity].
        destruct (Z.leb_spec (hours y) (hours x)); [lia | reflexivity].
      * exact IH.
Qed.

(** X4. Among tiers that share the threshold that applies, the one
    stored first is charged: the rule found is preceded in the table only
    by fitting rules of strictly smaller threshold, and followed only by
    fitting rules of smaller or equal threshold. *)
Theorem applicableRule_first_listed h tiers r :
  find (fun rule => hours rule <=? h) (sortedRulesOf tiers) = Some r ->
  exists before after,
    tiers = before ++ r :: after /\
    hours r <= h /\
    (forall x, In x before -> hours x <= h -> hours x < hours r) /\
    (forall x, In x after -> hours x <= h -> hours x <= hours r).
Proof.
  revert r. induction tiers as [|x tiers IH]; intros r Hf; [discriminate|].
  unfold sortedRulesOf in Hf. cbn [JS.sort] in Hf.
  rewrite find_sort_insert in Hf by apply sortedRulesOf_desc.
  fold (sortedRulesOf tiers) in Hf.
  destruct (find _ (sortedRulesOf tiers)) as [r0|] eqn:H0.
  - destruct (IH r0 eq_refl) as (before & after & Heq & Hfit & Hb & Ha).
    destruct (Z.leb_spec (hours x) h) as [Hx|Hx]; cbn [andb] in Hf.
    + destruct (Z.leb_spec (hours r0) (hours x)) as [Hr|Hr]; injection Hf as <-.
      * exists [], tiers. split; [reflexivity|]. split; [exact Hx|].
        split; [intros y []|]. intros y Hy Hfy. rewrite Heq in Hy.
        apply in_app_or in Hy as [Hy|[<-|Hy]].
        -- specialize (Hb y Hy Hfy). lia.
        -- exact Hr.
        -- specialize (Ha y Hy Hfy). lia.
      * exists (x :: before), after. split; [now rewrite Heq|]. split; [exact Hfit|].
        split; [|exact Ha]. intros y [<-|Hy] Hfy; [lia | now apply Hb].
    + injection Hf as <-.
      exists (x :: before), after. split; [now rewrite Heq|]. split; [exact Hfit|].
      split; [|exact Ha]. intros y [<-|Hy] Hfy; [lia | now apply Hb].
  - destruct (Z.leb_spec (hours x) h) as [Hx|Hx]; [|discriminate].
    injection Hf as <-. exists [], tiers. split; [reflexivity|]. split; [exact Hx|].
    split; [intros y []|]. intros y Hy Hfy.
    assert (Hs : In y (sortedRulesOf tiers))
      by (eapply Permutation_in; [symmetry; apply sortedRulesOf_perm | exact Hy]).
    pose proof (find_none _ _ H0 y Hs) as Hno. cbn in Hno. lia.
Qed.

(** Two rules for 12 hours: the first one, 500, is charged. *)
Lemma applicableRule_first_listed_witness :
  exists before after,
    [mkRule 1 50; mkRule 12 500; mkRule 12 400] = before ++ mkRule 12 500 :: after /\
    hours (mkRule 12 500) <= 13 /\
    (forall x, In x before -> hours x <= 13 -> hours x < hours (mkRule 12 500)) /\
    (forall x, In x after -> hours x <= 13 -> hours x <= hours (mkRule 12 500)).
Proof.
  apply (applicableRule_first_listed 13 [mkRule 1 50; mkRule 12 500; mkRule 12 400]).
  reflexivity.
Defined.

(** ** The plate formatter, continued *)

Lemma take10_app_take10 {A} (c t : list A) :
  take 10 (take 10 c ++ t) = take 10 (c ++ t).
Proof.
  destruct (Nat.le_gt_cases 10 (length c)) as [Hlen|Hlen].
  - rewrite !take_app_le by (rewrite ?length_take; lia).
    now rewrite take_take.
  - now rewrite (take_ge c) by lia.
Qed.

Lemma formatVehicleNumber_list val :
  list_ascii_of_string (formatVehicleNumber val)
  = formatClean (cleanOf (list_ascii_of_string val)).
Proof. unfold formatVehicleNumber. apply list_ascii_of_string_of_list_ascii. Qed.

(** X5. Typing after a formatted plate gives what formatting the whole
    text would give: the field may be re-formatted on every keystroke. *)
Theorem formatVehicleNumber_typing (val typed : string) :
  formatVehicleNumber (formatVehicleNumber val ++ typed)
  = formatVehicleNumber (val ++ typed).
Proof.
  unfold formatVehicleNumber at 1 3. f_equal.
  rewrite !list_ascii_of_string_app, !cleanOf_app, formatVehicleNumber_list.
  rewrite cleanOf_formatClean by (apply cleanOf_notSpace || apply cleanOf_upper).
  rewrite <- formatClean_take10, take10_app_take10.
  apply formatClean_take10.
Qed.

(** X6. The formatted plate has at most 13 characters, is empty exactly
    when the text has no character other than blanks, does not begin
    with a blank, and is never a session identifier ["PK-..."]. *)
Theorem formatVehicleNumber_shape (val : string) :
  (String.length (formatVehicleNumber val) <= 13)%nat /\
  (formatVehicleNumber val = ""%string
   <-> Str.removeWhiteSpace (list_ascii_of_string val) = []) /\
  (forall c rest, formatVehicleNumber val = String c rest -> Str.isWhiteSpace c = false) /\
  (forall r, formatVehicleNumber val <> ("PK-" ++ r)%string).
Proof.
  pose proof (cleanOf_notSpace (list_ascii_of_string val)) as Hs.
  pose proof (cleanOf_length (list_ascii_of_string val)) as Hlen.
  unfold formatVehicleNumber.
  set (clean := cleanOf (list_ascii_of_string val)) in *.
  assert (Hnil : clean = [] <-> Str.removeWhiteSpace (list_ascii_of_string val) = []).
  { split; intros H.
    - apply length_zero_iff_nil. rewrite <- Hlen, H. reflexivity.
    - apply length_zero_iff_nil. rewrite Hlen, H. reflexivity. }
  rewrite <- Hnil. clear Hnil Hlen. clearbody clean.
  rewrite <- formatClean_take10.
  assert (H10 : Forall notSpace (take 10 clean)) by now apply Forall_take.
  assert (Hempty : take 10 clean = [] <-> clean = []).
  { destruct clean; cbn; split; congruence. }
  rewrite <- Hempty. clear Hempty Hs.
  assert (Hpk : forall r, ("PK-" ++ r)%string = String "P" (String "K" (String "-" r)))
    by reflexivity.
  do 10 (destruct clean as [|? clean];
         [cbn in H10 |- *; repeat (apply Forall_cons in H10 as [? H10]);
          unfold notSpace in *;
          split; [lia|]; split; [split; congruence|];
          split; [intros ? ? Heq; cbn in Heq;
                  (discriminate || (injection Heq as <- _; assumption))
                 | intros r Heq; rewrite Hpk in Heq; cbn in Heq; unfold space in Heq; congruence]
         |]).
  destruct clean as [|? clean];
    cbn in H10 |- *; repeat (apply Forall_cons in H10 as [? H10]);
    unfold notSpace in *;
    (split; [lia|]; split; [split; congruence|];
     split; [intros ? ? Heq; injection Heq as <- _; assumption
            | intros r Heq; rewrite Hpk in Heq; cbn in Heq; unfold space in Heq; congruence]).
Qed.

(** ** The calendar month of a membership *)












(** ** Memberships at the gate *)

(** An entry that nothing stands against is admitted. *)
Lemma handleEntry_admits env st :
  JS.truthy_string (vehicleNumber st) = true ->
  JS.truthy_num (userId env) = true ->
  dbError env = false ->
  find (activeFor (vehicleNumber st)) (sessions st) = None ->
  (forall p, find (fun p => (mp_vehicleNumber p =? vehicleNumber st)%string) (passes st)
             = Some p -> now env <= mp_expiryDate p) ->
  fst (handleEntry env st) = EntryAdmitted (entrySession env st) /\
  sessions (snd (handleEntry env st)) = entrySession env st :: sessions st /\
  passes (snd (handleEntry env st)) = passes st /\
  settings (snd (handleEntry env st)) = settings st.
Proof.
  intros Hplate Huser Hdb Hact Hpass. unfold handleEntry, entrySession.
  rewrite Hplate, Huser, Hact, Hdb. cbn [negb].
  destruct (find _ (passes st)) as [p|] eqn:Hp.
  - specialize (Hpass p eq_refl). unfold DateFns.isBefore.
    destruct (Z.ltb_spec (mp_expiryDate p) (now env)); [lia|].
    cbn. repeat split; reflexivity.
  - cbn. repeat split; reflexivity.
Qed.





(** X10. A recharge for an identifier that no pass carries changes
    nothing.  Otherwise it leaves every pass with another identifier as
    it is and, pass identifiers being unique, moves no expiry backward
    and changes nothing but the expiry. *)
Theorem rechargePass_forward env passId st :
  (find (fun p => (mp_id p =? passId)%string) (passes st) = None ->
   rechargePass env passId st = (RechargeNoPass, st)) /\
  Forall2 (fun p p' => mp_id p <> passId -> p' = p)
          (passes st) (passes (snd (rechargePass env passId st))) /\
  (NoDup (map mp_id (passes st)) ->
   Forall2 samePass (passes st) (passes (snd (rechargePass env passId st)))).
Proof.
  assert (Hrefl : forall l, Forall2 samePass l l).
  { induction l; constructor; [|assumption]. unfold samePass. repeat split; lia. }
  assert (Hsame : forall l, Forall2 (fun p p' : MembershipPass => mp_id p <> passId -> p' = p) l l).
  { induction l; constructor; auto. }
  unfold rechargePass.
  destruct (find _ (passes st)) as [pass|] eqn:Hfind.
  2:{ split; [intros _; reflexivity|]. split; [apply Hsame | intros _; apply Hrefl]. }
  split; [discriminate|].
  destruct (JS.truthy_num (userId env)); cbn [negb snd].
  2:{ split; [apply Hsame | intros _; apply Hrefl]. }
  destruct (dbError env); cbn [snd].
  1:{ split; [apply Hsame | intros _; apply Hrefl]. }
  cbn [setPasses passes].
  set (newExpiry := DateFnsMonths.addMonths _ 1).
  assert (Hlater : mp_expiryDate pass < newExpiry).
  { subst newExpiry. unfold DateFns.isAfter.
    destruct (Z.ltb_spec (now env) (mp_expiryDate pass)).
    - apply addMonths_later.
    - pose proof (addMonths_later (now env)). lia. }
  split.
  - clear. induction (passes st) as [|p l IH]; cbn [map]; constructor; [|exact IH].
    intros Hne. destruct (String.eqb_spec (mp_id p) passId); [contradiction | reflexivity].
  - intros Hnd. apply find_some in Hfind as [Hin Hid]. apply String.eqb_eq in Hid.
    clearbody newExpiry.
    assert (Hall : forall p, In p (passes st) -> mp_id p = passId -> p = pass).
    { intros p Hp Hpid. apply (NoDup_map_eq mp_id (passes st)); try assumption. congruence. }
    clear Hnd Hin. induction (passes st) as [|p l IH]; cbn [map]; constructor.
    + destruct (String.eqb_spec (mp_id p) passId) as [Heq|Hne].
      * rewrite (Hall p (or_introl eq_refl) Heq).
        unfold samePass, withExpiry. cbn. repeat split; lia.
      * unfold samePass. repeat split; lia.
    + apply IH. intros q Hq. apply Hall. now right.
Qed.

Lemma rechargePass_forward_witness :
  Forall2 samePass (passes (stateWithPass 1000))
          (passes (snd (rechargePass (envAt 5000 "") "MS-00FF" (stateWithPass 1000)))).
Proof.
  apply (proj2 (proj2 (rechargePass_forward (envAt 5000 "") "MS-00FF" (stateWithPass 1000)))).
  cbn. repeat constructor. rewrite list_elem_of_In. intros [].
Defined.



(** ** Exits *)

(** An exit that finds an active session settles it. *)
Lemma handleExit_settles env idToExit st session :
  find (fun s => (ps_id s =? idToExit)%string || (ps_vehicleNumber s =? idToExit)%string)
       (sessions st) = Some session ->
  ps_status session = active ->
  JS.truthy_num (userId env) = true -> dbError env = false ->
  fst (handleExit env idToExit st)
  = ExitSettled (closeSession (now env) (calculateBill (settings st) session (now env)) session).
Proof.
  intros Hfind Hact Huser Hdb. unfold handleExit.
  rewrite Hfind, Hact, Huser, Hdb. reflexivity.
Qed.

(** X12. A vehicle admitted on a valid pass pays nothing when it leaves,
    however long it stayed, and the receipt reports the minutes of the
    stay. *)
Theorem member_visit_free env st pass env2 :
  JS.truthy_string (vehicleNumber st) = true ->
  JS.truthy_num (userId env) = true -> dbError env = false ->
  find (activeFor (vehicleNumber st)) (sessions st) = None ->
  find (fun p => (mp_vehicleNumber p =? vehicleNumber st)%string) (passes st) = Some pass ->
  now env <= mp_expiryDate pass ->
  JS.truthy_num (userId env2) = true -> dbError env2 = false ->
  exists receipt,
    fst (handleExit env2 (vehicleNumber st) (snd (handleEntry env st))) = ExitSettled receipt /\
    ps_vehicleNumber receipt = vehicleNumber st /\
    ps_status receipt = completed /\
    ps_amount receipt = Some 0 /\
    ps_durationMinutes receipt = Some (DateFns.differenceInMinutes (now env2) (now env)).
Proof.
  intros Hplate Huser Hdb Hact Hpass Hvalid Huser2 Hdb2.
  destruct (handleEntry_admits env st) as (_ & Hsess & _ & _); try assumption.
  { intros p Hp. rewrite Hpass in Hp. now injection Hp as <-. }
  eexists. split.
  - apply handleExit_settles; try assumption.
    + rewrite Hsess. cbn [find entrySession ps_id ps_vehicleNumber].
      rewrite String.eqb_refl, orb_true_r. reflexivity.
    + reflexivity.
  - unfold entrySession. rewrite Hpass.
    unfold closeSession, calculateBill. cbn. repeat split; reflexivity.
Qed.

Lemma member_visit_free_witness :
  exists receipt,
    fst (handleExit (envAt 600000999 "") "TN 18 AV 4064"
           (snd (handleEntry (envAt 999 "A1B2C3") (stateWithPass 1000))))
    = ExitSettled receipt /\
    ps_amount receipt = Some 0.
Proof.
  destruct (member_visit_free (envAt 999 "A1B2C3") (stateWithPass 1000) (passUntil 1000)
              (envAt 600000999 "")
              eq_refl eq_refl eq_refl eq_refl eq_refl ltac:(cbn; lia) eq_refl eq_refl)
    as (receipt & Hr & _ & _ & Ha & _).
  exists receipt. split; assumption.
Defined.











(** ** What becomes of the sessions on record *)










Lemma ui_step_sessions st st' :
  ui_step st st' ->
  sessions st' = sessions st \/
  (exists env st0, sessions st0 = sessions st /\ st' = snd (handleEntry env st0)) \/
  (exists env i st0, sessions st0 = sessions st /\ st' = snd (handleExit env i st0)).
Proof.
  intros Hstep. destruct Hstep; try (left; reflexivity).
  - left. unfold toggleFree. now destruct (isFree st).
  - right. left. now exists env, st.
  - right. right. now exists env, (exitId st), st.
  - right. right. now eexists env, _, (setExitId (ps_vehicleNumber s) st).
  - unfold onScan. destruct (find _ (sessions st)) as [x|]; cbn [snd].
    + right. right. now eexists env, _, (setExitId (ps_vehicleNumber x) st).
    + now left.
  - left. apply rechargePass_sessions.
  - left. unfold createMembership. destruct (negb _); [reflexivity|].
    now destruct (dbError env).
Qed.









Lemma pending_close t b i l :
  pendingWhileActive l ->
  pendingWhileActive (map (fun s => if (ps_id s =? i)%string then closeSession t b s else s) l).
Proof.
  unfold pendingWhileActive. intros H. apply Forall_map.
  eapply Forall_impl; [exact H|]. intros s Hs. cbn beta.
  destruct (ps_id s =? i)%string; [discriminate | exact Hs].
Qed.

(** X16. If every active session is pending (no exit time, amount or
    duration), this is still so after any run of the interface. *)
Theorem active_sessions_pending st st' :
  pendingWhileActive (sessions st) -> ui_run st st' ->
  pendingWhileActive (sessions st').
Proof.
  intros H0 Hrun. induction Hrun as [|st1 st2 st3 _ IH Hstep]; [exact H0|].
  specialize (IH H0).
  destruct (ui_step_sessions _ _ Hstep)
    as [-> | [(env & st0 & Hs & ->) | (env & i & st0 & Hs & ->)]]; [exact IH| |].
  - rewrite <- Hs in IH.
    destruct (handleEntry_sessions env st0) as [-> | (s & Hfst & -> & _)]; [exact IH|].
    constructor; [|exact IH]. intros _.
    unfold handleEntry in Hfst.
    destruct (negb (JS.truthy_string _)); [discriminate|].
    destruct (negb (JS.truthy_num _)); [discriminate|].
    destruct (find (activeFor _) _); [discriminate|].
    destruct (find _ (passes st0)).
    + destruct (DateFns.isBefore _ _); [discriminate|].
      destruct (dbError env); [discriminate|]. injection Hfst as <-. now cbn.
    + destruct (dbError env); [discriminate|]. injection Hfst as <-. now cbn.
  - rewrite <- Hs in IH.
    destruct (handleExit_sessions env i st0) as [[-> _] | (session & _ & _ & _ & ->)];
      [exact IH | now apply pending_close].
Qed.

Lemma active_sessions_pending_witness : pendingWhileActive (sessions settledState).
Proof.
  apply (active_sessions_pending parkedState).
  - repeat constructor; reflexivity.
  - apply (ui_run_step _ (setExitId (formatVehicleNumber "tn18av4064") parkedState)).
    + apply (ui_run_step _ parkedState); [apply ui_run_refl | apply ui_typeExit].
    + exact (ui_exit (envAt 3600000 "") (setExitId (formatVehicleNumber "tn18av4064") parkedState)).
Defined.

(** ** The pricing rules editor *)

(** The first fitting rule when a rule is appended to the table: the new
    rule wins only with a strictly larger threshold. *)
Lemma find_sorted_snoc h l b :
  find (fun r => hours r <=? h) (sortedRulesOf (l ++ [b])) =
    match find (fun r => hours r <=? h) (sortedRulesOf l) with
    | Some r => if (hours b <=? h) && (hours r <? hours b) then Some b else Some r
    | None => if hours b <=? h then Some b else None
    end.
Proof.
  induction l as [|x l IH].
  - reflexivity.
  - change (sortedRulesOf ((x :: l) ++ [b]))
      with (JS.sort_insert (fun a b => hours b - hours a) x (sortedRulesOf (l ++ [b]))).
    change (sortedRulesOf (x :: l))
      with (JS.sort_insert (fun a b => hours b - hours a) x (sortedRulesOf l)).
    rewrite !find_sort_insert by apply sortedRulesOf_desc. rewrite IH.
    destruct (find _ (sortedRulesOf l)) as [r|] eqn:Hr.
    + assert (Hfit : hours r <= h).
      { apply find_some in Hr as [_ Hr]. cbn in Hr. lia. }
      destruct (Z.leb_spec (hours b) h), (Z.ltb_spec (hours r) (hours b)),
               (Z.leb_spec (hours x) h); cbn [andb];
        repeat match goal with
               | |- context [?a <=? ?c] => destruct (Z.leb_spec a c)
               | |- context [?a <? ?c] => destruct (Z.ltb_spec a c)
               end; cbn [andb]; try reflexivity; lia.
    + destruct (Z.leb_spec (hours b) h), (Z.leb_spec (hours x) h); cbn [andb];
        repeat match goal with
               | |- context [?a <=? ?c] => destruct (Z.leb_spec a c)
               | |- context [?a <? ?c] => destruct (Z.ltb_spec a c)
               end; cbn [andb]; try reflexivity; lia.
Qed.

Lemma addRule_rules vt cfg cfg' :
  addRule vt cfg = Some cfg' ->
  graceTimeMinutes cfg' = graceTimeMinutes cfg /\
  currentRulesOf cfg' vt = currentRulesOf cfg vt ++ [mkRule 0 0] /\
  forall vt', vt' <> vt -> currentRulesOf cfg' vt' = currentRulesOf cfg vt'.
Proof.
  unfold addRule, currentRulesOf.
  destruct (pricingRules cfg !! vt) as [rules|] eqn:Hr; [|discriminate].
  intros H. injection H as <-. cbn [withRules graceTimeMinutes pricingRules].
  split; [reflexivity|]. split.
  - now rewrite lookup_insert_eq.
  - intros vt' Hne. now rewrite lookup_insert_ne by congruence.
Qed.

Lemma calculateBill_same_rules cfg cfg' session exitTime :
  graceTimeMinutes cfg' = graceTimeMinutes cfg ->
  currentRulesOf cfg' (ps_vehicleType session) = currentRulesOf cfg (ps_vehicleType session) ->
  calculateBill cfg' session exitTime = calculateBill cfg session exitTime.
Proof. intros Hg Hr. unfold calculateBill. now rewrite Hg, Hr. Qed.

(** X17. The "add rule" button appends a blank rule (0 hours, amount 0).
    With a non-negative grace period and a 1-hour tier in the table this
    changes no bill.  In a table where no tier fits the billed hours, the
    stay that was charged by the hour becomes free. *)
Theorem addRule_blank vt cfg cfg' :
  addRule vt cfg = Some cfg' ->
  (0 <= graceTimeMinutes cfg ->
   (exists r, In r (currentRulesOf cfg vt) /\ hours r = 1) ->
   forall session exitTime,
     calculateBill cfg' session exitTime = calculateBill cfg session exitTime) /\
  (forall session exitTime,
     ps_vehicleType session = vt ->
     JS.truthy_bool (ps_isFree session) = false ->
     let m := DateFns.differenceInMinutes exitTime (ps_entryTime session) in
     graceTimeMinutes cfg < m -> 0 <= JS.ceil_div m 60 ->
     (forall r, In r (currentRulesOf cfg vt) -> JS.ceil_div m 60 < hours r) ->
     bill_amount (calculateBill cfg session exitTime)
       = JS.ceil_div m 60 * baseHourRateOf (currentRulesOf cfg vt) /\
     bill_amount (calculateBill cfg' session exitTime) = 0).
Proof.
  intros Hadd. destruct (addRule_rules vt cfg cfg' Hadd) as (Hg & Hvt & Hother).
  split.
  - intros Hgrace (r1 & Hin1 & Hh1) session exitTime.
    destruct (String.eqb_spec (ps_vehicleType session) vt) as [Heq|Hne];
      [|apply calculateBill_same_rules; [exact Hg | now apply Hother]].
    destruct (JS.truthy_bool (ps_isFree session)) eqn:Hfree;
      [unfold calculateBill; now rewrite Hfree|].
    rewrite !calculateBill_paid by exact Hfree. cbv zeta. rewrite Hg, Heq, Hvt.
    set (m := DateFns.differenceInMinutes exitTime (ps_entryTime session)).
    destruct (Z.leb_spec m (graceTimeMinutes cfg)); [reflexivity|].
    rewrite find_sorted_snoc.
    destruct (find_fitting (JS.ceil_div m 60) (currentRulesOf cfg vt) r1 Hin1)
      as (r & -> & Hr & Hfit & Hmax).
    { pose proof (ceil_div_60_pos m). lia. }
    specialize (Hmax r1 Hin1). pose proof (ceil_div_60_pos m).
    cbn [hours]. destruct (Z.ltb_spec (hours r) 0); [lia|].
    now rewrite andb_false_r.
  - intros session exitTime Hcat Hfree m Hlong Hh Hnone.
    rewrite !calculateBill_paid by exact Hfree. cbv zeta. fold m.
    rewrite Hg, Hcat, Hvt.
    destruct (Z.leb_spec m (graceTimeMinutes cfg)); [lia|].
    rewrite find_sorted_snoc.
    destruct (find _ (sortedRulesOf (currentRulesOf cfg vt))) as [r|] eqn:Hf.
    { exfalso. apply find_some in Hf as [Hin Hfit]. cbn in Hfit.
      assert (In r (currentRulesOf cfg vt))
        by (eapply Permutation_in; [apply sortedRulesOf_perm | exact Hin]).
      specialize (Hnone r H0). lia. }
    cbn [hours]. destruct (Z.leb_spec 0 (JS.ceil_div m 60)); [|lia].
    split; reflexivity.
Qed.

Lemma addRule_blank_witness :
  exists cfg',
    addRule "car" longStayOnly = Some cfg' /\
    bill_amount (calculateBill longStayOnly (carSession 0) (300 * 60000)) = 250 /\
    bill_amount (calculateBill cfg' (carSession 0) (300 * 60000)) = 0.
Proof.
  destruct (addRule "car" longStayOnly) as [cfg'|] eqn:Hadd; [|discriminate].
  exists cfg'. split; [reflexivity|].
  destruct (proj2 (addRule_blank "car" longStayOnly cfg' Hadd) (carSession 0) (300 * 60000))
    as [Hbefore Hafter].
  - reflexivity.
  - reflexivity.
  - vm_compute. reflexivity.
  - vm_compute. discriminate.
  - intros r Hr. vm_compute in Hr. destruct Hr as [<-|[<-|[]]]; vm_compute; reflexivity.
  - split; [rewrite Hbefore; vm_compute; reflexivity | exact Hafter].
Defined.

(** X18. Editing the rules of one category (changing a threshold or an
    amount, removing or adding a rule) leaves the grace period and every
    bill of the other categories as they were. *)
Theorem rule_editor_isolated vt cfg cfg' :
  (exists i v, setRuleHours vt i v cfg = Some cfg') \/
  (exists i v, setRuleAmount vt i v cfg = Some cfg') \/
  (exists i, removeRule vt i cfg = Some cfg') \/
  addRule vt cfg = Some cfg' ->
  graceTimeMinutes cfg' = graceTimeMinutes cfg /\
  forall session exitTime,
    ps_vehicleType session <> vt ->
    calculateBill cfg' session exitTime = calculateBill cfg session exitTime.
Proof.
  intros Hedit.
  assert (H : graceTimeMinutes cfg' = graceTimeMinutes cfg /\
              forall vt', vt' <> vt -> currentRulesOf cfg' vt' = currentRulesOf cfg vt').
  { unfold setRuleHours, setRuleAmount, removeRule, addRule, currentRulesOf in *.
    destruct (pricingRules cfg !! vt) as [rules|] eqn:Hr.
    2:{ destruct Hedit as [(i & v & H)|[(i & v & H)|[(i & H)|H]]]; discriminate. }
    destruct Hedit as [(i & v & H)|[(i & v & H)|[(i & H)|H]]].
    - destruct (rules !! i); [|discriminate]. injection H as <-.
      split; [reflexivity|]. intros vt' Hne. cbn. now rewrite lookup_insert_ne by congruence.
    - destruct (rules !! i); [|discriminate]. injection H as <-.
      split; [reflexivity|]. intros vt' Hne. cbn. now rewrite lookup_insert_ne by congruence.
    - injection H as <-.
      split; [reflexivity|]. intros vt' Hne. cbn. now rewrite lookup_insert_ne by congruence.
    - injection H as <-.
      split; [reflexivity|]. intros vt' Hne. cbn. now rewrite lookup_insert_ne by congruence. }
  destruct H as [Hg Hother]. split; [exact Hg|].
  intros session exitTime Hne. apply calculateBill_same_rules; [exact Hg | now apply Hother].
Qed.

Lemma rule_editor_isolated_witness :
  exists cfg',
    setRuleAmount "car" 0 75 defaultSettings = Some cfg' /\
    calculateBill cfg' (tractorSession 0) (90 * 60000)
    = calculateBill defaultSettings (tractorSession 0) (90 * 60000).
Proof.
  destruct (setRuleAmount "car" 0 75 defaultSettings) as [cfg'|] eqn:H; [|discriminate].
  exists cfg'. split; [reflexivity|].
  apply (proj2 (rule_editor_isolated "car" defaultSettings cfg'
                  (or_intror (or_introl (ex_intro _ 0%nat (ex_intro _ 75 H)))))).
  discriminate.
Defined.

Lemma filter_index_all {A} (keep : nat -> bool) n (l : list A) :
  (forall i, (n <= i)%nat -> keep i = true) -> filter_index keep n l = l.
Proof.
  revert n. induction l as [|x l IH]; intros n H; [reflexivity|].
  cbn [filter_index]. rewrite (H n) by lia. f_equal. apply IH. intros i Hi. apply H. lia.
Qed.

(** Filtering one index out is deleting that position. *)
Lemma filter_index_delete {A} n j (l : list A) :
  filter_index (fun i => negb (i =? n + j)%nat) n l = take j l ++ drop (S j) l.
Proof.
  revert n j. induction l as [|x l IH]; intros n j.
  - now destruct j.
  - cbn [filter_index]. destruct j as [|j].
    + replace (n + 0)%nat with n by lia. rewrite Nat.eqb_refl. cbn [negb take drop app].
      apply filter_index_all. intros i Hi.
      destruct (Nat.eqb_spec i n); [lia | reflexivity].
    + destruct (Nat.eqb_spec n (n + S j)); [lia|]. cbn [negb take drop app]. f_equal.
      replace (n + S j)%nat with (S n + j)%nat by lia. apply IH.
Qed.

(** X19. In the rules editor of a category that has a table: adding a
    rule and removing the last row again gives back the settings;
    removing a row deletes exactly that position, and removing a position
    beyond the table changes nothing; setting a threshold changes that
    row's threshold only.  For a category without table every edit
    fails. *)
Theorem rule_editor_rows vt cfg :
  (forall rules,
     pricingRules cfg !! vt = Some rules ->
     (exists cfg1, addRule vt cfg = Some cfg1 /\
                   currentRulesOf cfg1 vt = rules ++ [mkRule 0 0] /\
                   removeRule vt (length rules) cfg1 = Some cfg) /\
     (forall i, exists cfg2, removeRule vt i cfg = Some cfg2 /\
                             currentRulesOf cfg2 vt = take i rules ++ drop (S i) rules) /\
     (forall i, (length rules <= i)%nat -> removeRule vt i cfg = Some cfg) /\
     (forall i v r, rules !! i = Some r ->
        exists cfg3, setRuleHours vt i v cfg = Some cfg3 /\
                     currentRulesOf cfg3 vt = <[i := mkRule v (amount r)]> rules) /\
     (forall i v, rules !! i = None -> setRuleHours vt i v cfg = None)) /\
  (pricingRules cfg !! vt = None ->
   addRule vt cfg = None /\
   (forall i, removeRule vt i cfg = None) /\
   (forall i v, setRuleHours vt i v cfg = None) /\
   (forall i v, setRuleAmount vt i v cfg = None)).
Proof.
  split.
  - intros rules Hr. destruct cfg as [grace table]. cbn [pricingRules] in Hr.
    unfold addRule, removeRule, setRuleHours, currentRulesOf, withRules.
    cbn [pricingRules graceTimeMinutes]. rewrite Hr.
    assert (Hdel : forall (l : list PricingRule) i,
               filter_index (fun k => negb (k =? i)%nat) 0 l = take i l ++ drop (S i) l).
    { intros l i. apply (filter_index_delete 0 i). }
    split; [|split; [|split; [|split]]].
    + eexists. split; [reflexivity|]. cbn [pricingRules graceTimeMinutes].
      rewrite !lookup_insert_eq. split; [reflexivity|].
      rewrite Hdel.
      rewrite take_app_length, drop_ge by (rewrite length_app; cbn; lia).
      rewrite app_nil_r, insert_insert_eq, insert_id by exact Hr. reflexivity.
    + intros i. eexists. split; [reflexivity|]. cbn [pricingRules].
      now rewrite lookup_insert_eq, Hdel.
    + intros i Hi. rewrite Hdel, take_ge, drop_ge by lia.
      now rewrite app_nil_r, insert_id by exact Hr.
    + intros i v r Hi. rewrite Hi. eexists. split; [reflexivity|]. cbn [pricingRules].
      now rewrite lookup_insert_eq.
    + intros i v Hi. now rewrite Hi.
  - intros Hr. unfold addRule, removeRule, setRuleHours, setRuleAmount. rewrite Hr.
    repeat split.
Qed.

Lemma rule_editor_rows_witness :
  exists cfg1, addRule "car" defaultSettings = Some cfg1 /\
               removeRule "car" 3 cfg1 = Some defaultSettings.
Proof.
  destruct (proj1 (proj1 (rule_editor_rows "car" defaultSettings)
                     [mkRule 1 50; mkRule 12 500; mkRule 24 900] eq_refl))
    as (cfg1 & Hadd & _ & Hrem).
  exists cfg1. split; assumption.
Defined.

(** ** Authentication *)

(** X20. After [logout] in a browser, no user is authenticated, the
    stored e-mail and user identifier are gone, the page is the login
    page, and every other key of the storage is untouched.  Where there
    is no [window], [logout] does nothing and nobody is authenticated. *)
Theorem logout_clears (parseInt : string -> option Z) (b : Auth.Browser) :
  (Auth.hasWindow b = true ->
   Auth.isAuthenticated (Auth.logout b) = false /\
   Auth.getUserEmail (Auth.logout b) = None /\
   Auth.getUserId parseInt (Auth.logout b) = None /\
   Auth.href (Auth.logout b) = "/login"%string /\
   forall k, k <> "isLoggedIn"%string -> k <> "userEmail"%string -> k <> "userId"%string ->
             Auth.localStorage (Auth.logout b) !! k = Auth.localStorage b !! k) /\
  (Auth.hasWindow b = false ->
   Auth.logout b = b /\
   Auth.isAuthenticated b = false /\
   Auth.getUserEmail b = None /\
   Auth.getUserId parseInt b = None).
Proof.
  unfold Auth.logout, Auth.isAuthenticated, Auth.getUserEmail, Auth.getUserId.
  split; intros Hw; rewrite Hw; cbn [negb Auth.hasWindow Auth.localStorage Auth.href].
  - split; [|split; [|split; [|split]]].
    + apply bool_decide_eq_false. rewrite !lookup_delete_ne, lookup_delete_eq by discriminate.
      discriminate.
    + now rewrite lookup_delete_ne, lookup_delete_eq by discriminate.
    + now rewrite lookup_delete_eq.
    + reflexivity.
    + intros k H1 H2 H3. now rewrite !lookup_delete_ne by congruence.
  - repeat split.
Qed.

Lemma logout_clears_witness :
  Auth.isAuthenticated loggedIn = true /\
  Auth.isAuthenticated (Auth.logout loggedIn) = false.
Proof.
  split; [reflexivity|].
  apply (proj1 (logout_clears (fun _ => None) loggedIn)). reflexivity.
Defined.

(** X21. A handler that gets no user identifier (as after [logout])
    changes nothing: no session is opened or settled, no pass created or
    recharged. *)
Theorem handlers_need_user (parseInt : string -> option Z) (b : Auth.Browser) env st :
  userId env = Auth.getUserId parseInt (Auth.logout b) ->
  snd (handleEntry env st) = st /\
  (forall idToExit, snd (handleExit env idToExit st) = st) /\
  (forall passId, snd (rechargePass env passId st) = st) /\
  (forall form, createMembership env form st = (MembershipAuthError, st, form)) /\
  (forall id, sessions (snd (onScan env id st)) = sessions st).
Proof.
  intros Hid.
  assert (Hnone : JS.truthy_num (userId env) = false).
  { rewrite Hid. unfold Auth.getUserId, Auth.logout.
    destruct (Auth.hasWindow b) eqn:Hw; cbn [negb]; [|now rewrite Hw].
    cbn [Auth.hasWindow Auth.localStorage negb].
    now rewrite lookup_delete_eq. }
  assert (Hexit : forall idToExit st0, snd (handleExit env idToExit st0) = st0).
  { intros idToExit st0. unfold handleExit. rewrite Hnone.
    destruct (find _ (sessions st0)); [|reflexivity]. now destruct (Status_eqb _ _). }
  split; [|split; [|split; [|split]]].
  - unfold handleEntry. rewrite Hnone. now destruct (negb (JS.truthy_string _)).
  - intros idToExit. apply Hexit.
  - intros passId. unfold rechargePass. rewrite Hnone. now destruct (find _ (passes st)).
  - intros form. unfold createMembership. now rewrite Hnone.
  - intros id. unfold onScan. destruct (find _ (sessions st)); cbn [snd]; [|reflexivity].
    now rewrite Hexit.
Qed.

Lemma handlers_need_user_witness :
  snd (handleEntry (mkEnv None 0 "A1B2C3" false) (stateWithPass 1000)) = stateWithPass 1000.
Proof.
  apply (handlers_need_user (fun _ => Some 7) loggedIn
           (mkEnv None 0 "A1B2C3" false) (stateWithPass 1000)).
  reflexivity.
Defined.

(** ** The badge of the entry form *)

(** X22. The badge beside the plate field tells what a submission at the
    same instant will do (the user being logged in and the database
    accepting the write): "already entered" and "expired member" announce
    the two refusals, "authorized member" an exempt admission, and no
    badge an admission with the exemption chosen in the form. *)
Theorem entryBadge_predicts env st :
  (2 < String.length (vehicleNumber st))%nat ->
  JS.truthy_num (userId env) = true -> dbError env = false ->
  match entryBadge (now env) st with
  | Some BadgeAlreadyEntered => handleEntry env st = (EntryAlreadyEntered, st)
  | Some BadgeExpiredMember => handleEntry env st = (EntryMembershipExpired, st)
  | Some BadgeAuthorizedMember =>
      exists s, fst (handleEntry env st) = EntryAdmitted s /\ ps_isFree s = Some true
  | None =>
      exists s, fst (handleEntry env st) = EntryAdmitted s /\ ps_isFree s = Some (isFree st)
  end.
Proof.
  intros Hlen Huser Hdb. unfold entryBadge, handleEntry.
  destruct (Nat.ltb_spec 2 (String.length (vehicleNumber st))) as [_|]; [|lia].
  assert (Hplate : JS.truthy_string (vehicleNumber st) = true).
  { destruct (vehicleNumber st); [cbn in Hlen; lia | reflexivity]. }
  rewrite Hplate, Huser, Hdb. cbn [negb].
  destruct (find (activeFor _) _); [reflexivity|].
  destruct (find _ (passes st)) as [p|].
  - destruct (DateFns.isBefore _ _); [reflexivity|].
    eexists. split; reflexivity.
  - eexists. split; reflexivity.
Qed.

Lemma entryBadge_predicts_witness :
  handleEntry (envAt 5000 "A1B2C3") (stateWithPass 1000)
  = (EntryMembershipExpired, stateWithPass 1000).
Proof.
  exact (entryBadge_predicts (envAt 5000 "A1B2C3") (stateWithPass 1000)
           ltac:(cbn; lia) eq_refl eq_refl).
Defined.

(** ** A failed write at the gate *)

(** X23. When the database refuses the entry of a pass holder, nothing
    is recorded, but the exemption toggle of the form is left switched
    on: the next vehicle, though it holds no pass and nobody asked for
    an exemption, is admitted as exempt. *)
Theorem entry_db_error_exempts_next env st pass env2 plate2 :
  JS.truthy_string (vehicleNumber st) = true ->
  JS.truthy_num (userId env) = true ->
  find (activeFor (vehicleNumber st)) (sessions st) = None ->
  find (fun p => (mp_vehicleNumber p =? vehicleNumber st)%string) (passes st) = Some pass ->
  now env <= mp_expiryDate pass ->
  dbError env = true ->
  JS.truthy_string plate2 = true ->
  find (activeFor plate2) (sessions st) = None ->
  find (fun p => (mp_vehicleNumber p =? plate2)%string) (passes st) = None ->
  JS.truthy_num (userId env2) = true -> dbError env2 = false ->
  handleEntry env st = (EntryDbError, setIsFree true st) /\
  exists s,
    fst (handleEntry env2 (setVehicleNumber plate2 (snd (handleEntry env st))))
      = EntryAdmitted s /\
    ps_vehicleNumber s = plate2 /\
    ps_isFree s = Some true.
Proof.
  intros Hplate Huser Hact Hpass Hvalid Hdb Hplate2 Hact2 Hpass2 Huser2 Hdb2.
  assert (Hfail : handleEntry env st = (EntryDbError, setIsFree true st)).
  { unfold handleEntry. rewrite Hplate, Huser, Hact, Hpass, Hdb. cbn [negb].
    unfold DateFns.isBefore.
    destruct (Z.ltb_spec (mp_expiryDate pass) (now env)); [lia | reflexivity]. }
  split; [exact Hfail|]. rewrite Hfail. cbn [snd].
  set (st2 := setVehicleNumber plate2 (setIsFree true st)).
  destruct (handleEntry_admits env2 st2) as (Hres & _); try assumption.
  - subst st2. cbn [setVehicleNumber setIsFree passes vehicleNumber].
    intros p Hp. rewrite Hpass2 in Hp. discriminate.
  - exists (entrySession env2 st2). split; [exact Hres|].
    unfold entrySession. subst st2.
    cbn [setVehicleNumber setIsFree passes vehicleNumber isFree ps_vehicleNumber ps_isFree].
    rewrite Hpass2. split; reflexivity.
Qed.

Lemma entry_db_error_exempts_next_witness :
  isFree (stateWithPass 1000) = false /\
  exists s,
    fst (handleEntry (envAt 999 "D4E5F6")
           (setVehicleNumber "KA 05 MX 0001"
              (snd (handleEntry (mkEnv (Some 7) 999 "A1B2C3" true) (stateWithPass 1000)))))
      = EntryAdmitted s /\
    ps_isFree s = Some true.
Proof.
  split; [reflexivity|].
  destruct (entry_db_error_exempts_next (mkEnv (Some 7) 999 "A1B2C3" true)
              (stateWithPass 1000) (passUntil 1000) (envAt 999 "D4E5F6") "KA 05 MX 0001"
              eq_refl eq_refl eq_refl eq_refl ltac:(cbn; lia) eq_refl eq_refl eq_refl
              eq_refl eq_refl eq_refl) as (_ & s & Hs & _ & Hfree).
  exists s. split; assumption.
Defined.
